(** * ScrollMirror: a shallow embedding of [src/index.ts]

    The class [ScrollMirror] keeps a list of scroll containers in step: a
    native scroll on one of them is turned into a progress pair in 0..1 and
    written, scaled, to all the others.

    Modelling choices, all taken from the source:
    - a JavaScript [number] is an IEEE 754 binary64 value, here Rocq's
      primitive [float]; [!!v], [Math.max], [<] and [>] are written out with
      their treatment of NaN and of the two zeros;
    - an element is a reference ([Element]); its layout and scroll
      properties live in the page store ([page : Element -> Region]), which
      [scrollTo] updates;
    - the instance and the part of the host it touches (listener
      registrations, the console, the callbacks waiting for the next
      animation frame, the handlers suspended at [await nextTick()]) form
      one record, threaded through every operation;
    - where [scrollTo] puts an element is the host's business: the
      operations take it as a parameter ([settle]), and [cssom_settle] is
      the host used to run examples;
    - an operation that can raise returns an [Outcome];
    - [hasOverflow], [hasCSSOverflow] and [nextTick] come from
      [support/utils.js], which is not among the sources, and follow the
      spec. *)

From Stdlib Require Import Bool List String Arith ZArith Lia.
From Stdlib Require Import Floats.
Import ListNotations.

Local Open Scope string_scope.
Local Open Scope list_scope.
Local Open Scope float_scope.
Local Open Scope bool_scope.

(** ** JavaScript numbers *)

Module Js.

(** [ToBoolean] on a number: false exactly for [+0], [-0] and [NaN]. *)
Definition truthy (v : float) : bool := negb (is_zero v || is_nan v).

(** [Math.max(a, b)]: NaN when either argument is NaN, and [+0] is
    larger than [-0]. *)
Definition Math_max (a b : float) : float :=
  if is_nan a || is_nan b then nan
  else if a <? b then b
  else if b <? a then a
  else if get_sign a then b else a.

(** The outcome of a call: a value, or an exception crossing the call. *)
Inductive Error : Set :=
| TypeError (msg : string).

Inductive Outcome (A : Type) : Type :=
| Returned (a : A)
| Thrown (e : Error).
Arguments Returned {A} a.
Arguments Thrown {A} e.

Definition bind {A B} (m : Outcome A) (k : A -> Outcome B) : Outcome B :=
  match m with
  | Returned a => k a
  | Thrown e => Thrown e
  end.

Definition throws {A} (m : Outcome A) : bool :=
  match m with
  | Returned _ => false
  | Thrown _ => true
  end.

End Js.
Import Js.

Notation "'do' a <- m ; k" := (bind m (fun a => k))
  (at level 10, a name, m at level 100, k at level 200).

(** ** Data model *)

(** [type Options] (lines 3-8). *)
Record Options : Set := mkOptions {
  vertical : bool;
  horizontal : bool
}.

(** [Partial<Options>], the constructor's second argument. *)
Record PartialOptions : Set := mkPartialOptions {
  vertical_opt : option bool;
  horizontal_opt : option bool
}.

(** [readonly defaults] (lines 22-25). *)
Definition defaults : Options := mkOptions true true.

(** [{ ...this.defaults, ...options }] (line 44). *)
Definition mergeOptions (d : Options) (o : PartialOptions) : Options :=
  mkOptions
    (match vertical_opt o with Some b => b | None => vertical d end)
    (match horizontal_opt o with Some b => b | None => horizontal d end).

(** [type Progress] (lines 10-13); the fields are [x] and [y] in the
    source. *)
Record Progress : Set := mkProgress {
  prog_x : float;
  prog_y : float
}.

(** The properties of an [HTMLElement] that the class reads or writes. *)
Record Region : Set := mkRegion {
  scrollTop : float;
  scrollLeft : float;
  scrollWidth : float;
  scrollHeight : float;
  clientWidth : float;
  clientHeight : float;
  (** the computed style has [overflow: auto] or [overflow: scroll] *)
  cssOverflow : bool
}.

Definition with_scrollTop (v : float) (r : Region) : Region :=
  mkRegion v (scrollLeft r) (scrollWidth r) (scrollHeight r)
           (clientWidth r) (clientHeight r) (cssOverflow r).

Definition with_scrollLeft (v : float) (r : Region) : Region :=
  mkRegion (scrollTop r) v (scrollWidth r) (scrollHeight r)
           (clientWidth r) (clientHeight r) (cssOverflow r).

(** ** The progress engine *)

(** [const availableWidth = scrollWidth - clientWidth] (lines 182, 212). *)
Definition availableWidth (el : Region) : float :=
  scrollWidth el - clientWidth el.

(** [const availableHeight = scrollHeight - clientHeight] (lines 183, 213). *)
Definition availableHeight (el : Region) : float :=
  scrollHeight el - clientHeight el.

(** The literal [0.00001] of lines 216-217.  It is not a binary64 value;
    the parser takes the nearest one, written here exactly. *)
Definition epsilon : float := Eval cbv in 0x1.4f8b588e368f1p-17.

(** [getScrollProgress] (lines 202-219), for a defined element. *)
Definition getScrollProgress (el : Region) : Progress :=
  mkProgress
    (if truthy (scrollLeft el)
     then scrollLeft el / Math_max epsilon (availableWidth el) else 0)
    (if truthy (scrollTop el)
     then scrollTop el / Math_max epsilon (availableHeight el) else 0).

(** A host after the CSSOM View text of [scrollTo]: a non-finite request
    counts as 0, and the request is clamped to the scrollable range. *)
Definition cssom_settle (extent viewport requested : float) : float :=
  let v := if is_finite requested then requested else 0 in
  let hi := Math_max 0 (extent - viewport) in
  if v <? 0 then 0 else if hi <? v then hi else v.

(** ** Elements, event targets, diagnostics *)

(** A reference to an element of the page.  [html] says whether it is an
    [HTMLElement], [inBody] whether it matches the selector ["body *"].
    [document.documentElement] is an [HTMLElement] outside ["body *"]. *)
Inductive Element : Set :=
| documentElement
| element (id : nat) (html inBody : bool).

Definition instanceofHTMLElement (el : Element) : bool :=
  match el with
  | documentElement => true
  | element _ html _ => html
  end.

(** [el.matches("body *")]. *)
Definition matches_body_star (el : Element) : bool :=
  match el with
  | documentElement => false
  | element _ _ inBody => inBody
  end.

Definition Element_eq_dec (a b : Element) : {a = b} + {a <> b}.
Proof. decide equality; try apply Bool.bool_dec; apply Nat.eq_dec. Defined.

Definition Element_eqb (a b : Element) : bool :=
  if Element_eq_dec a b then true else false.

(** What can receive a scroll event: the window or an element. *)
Inductive EventTarget : Set :=
| window
| node (el : Element).

Definition EventTarget_eq_dec (a b : EventTarget) : {a = b} + {a <> b}.
Proof. decide equality; apply Element_eq_dec. Defined.

Definition EventTarget_eqb (a b : EventTarget) : bool :=
  if EventTarget_eq_dec a b then true else false.

(** A line on the console; a warning carries the element it is about. *)
Inductive Diagnostic : Set :=
| console_error (msg : string)
| console_warn (msg : string) (subject : option Element).

(** A text between double quotes. *)
Definition quoted (s : string) : string :=
  let q := String (Ascii.ascii_of_nat 34) EmptyString in q ++ s ++ q.

(** [prefix] (line 31). *)
Definition prefix : string := "[scroll-mirror]".

(** [getScrollContainer] (lines 125-128); its argument is an element in
    the constructor and [event.currentTarget] in [handleScroll]. *)
Definition getScrollContainer (el : EventTarget) : Element :=
  match el with
  | node e =>
      if instanceofHTMLElement e && matches_body_star e then e
      else documentElement
  | window => documentElement
  end.

(** [getEventTarget] (lines 135-137). *)
Definition getEventTarget (el : Element) : EventTarget :=
  if matches_body_star el then node el else window.

(** [[...new Set(xs)]]: the first occurrence of every element, in order. *)
Fixpoint unique (seen xs : list Element) : list Element :=
  match xs with
  | [] => []
  | e :: rest =>
      if existsb (Element_eqb e) seen then unique seen rest
      else e :: unique (e :: seen) rest
  end.

(** Lines 37-42: drop the falsy candidates ([None]), resolve each to its
    scroll container, remove duplicates. *)
Definition resolveElements (candidates : list (option Element))
    : list Element :=
  let truthy_ones :=
    flat_map (fun c => match c with Some e => [e] | None => [] end)
             candidates in
  unique [] (map (fun e => getScrollContainer (node e)) truthy_ones).

(** Modelled from the spec: [hasOverflow] of [support/utils.js], which is
    not among the sources.  The spec: an element reports no scrollable
    overflow when its scroll extent equals its viewport extent on both
    axes. *)
Definition hasOverflow (el : Region) : bool :=
  negb ((scrollWidth el =? clientWidth el)
        && (scrollHeight el =? clientHeight el)).

(** Modelled from the spec: [hasCSSOverflow] of [support/utils.js], which
    is not among the sources.  The spec: the element has explicit CSS
    overflow-auto/scroll styling. *)
Definition hasCSSOverflow (el : Region) : bool := cssOverflow el.

(** ** The instance and the host state it acts on *)

Record State : Type := mkState {
  (** [this.elements] *)
  elements : list Element;
  (** [this.options] *)
  options : Options;
  (** [this.paused] *)
  paused : bool;
  (** layout and scroll properties of every element of the page *)
  page : Element -> Region;
  (** the targets on which [this.handleScroll] is registered for "scroll" *)
  listeners : list EventTarget;
  (** callbacks handed to [requestAnimationFrame] and not yet run: each is
      [() => this.addHandler(element)] for the element recorded *)
  frames : list Element;
  (** calls of [handleScroll] suspended at [await nextTick()], each with
      its [scrolledElement] *)
  ticks : list Element;
  (** what was written to the console, oldest first *)
  console : list Diagnostic
}.

Definition set_paused (b : bool) (st : State) : State :=
  mkState (elements st) (options st) b (page st) (listeners st)
          (frames st) (ticks st) (console st).

Definition set_page (p : Element -> Region) (st : State) : State :=
  mkState (elements st) (options st) (paused st) p (listeners st)
          (frames st) (ticks st) (console st).

Definition set_listeners (l : list EventTarget) (st : State) : State :=
  mkState (elements st) (options st) (paused st) (page st) l
          (frames st) (ticks st) (console st).

Definition set_frames (f : list Element) (st : State) : State :=
  mkState (elements st) (options st) (paused st) (page st) (listeners st)
          f (ticks st) (console st).

Definition set_ticks (t : list Element) (st : State) : State :=
  mkState (elements st) (options st) (paused st) (page st) (listeners st)
          (frames st) t (console st).

Definition log (ds : list Diagnostic) (st : State) : State :=
  mkState (elements st) (options st) (paused st) (page st) (listeners st)
          (frames st) (ticks st) (console st ++ ds).

(** The page with the properties of [el] replaced by [r]. *)
Definition update (p : Element -> Region) (el : Element) (r : Region)
    : Element -> Region :=
  fun e => if Element_eqb e el then r else p e.

(** [target.addEventListener("scroll", this.handleScroll)]: a listener
    already registered is not registered twice. *)
Definition addEventListener (t : EventTarget) (ls : list EventTarget)
    : list EventTarget :=
  if existsb (EventTarget_eqb t) ls then ls else ls ++ [t].

(** [target.removeEventListener("scroll", this.handleScroll)]. *)
Definition removeEventListener (t : EventTarget) (ls : list EventTarget)
    : list EventTarget :=
  filter (fun u => negb (EventTarget_eqb t u)) ls.

(** [pause] (lines 62-64). *)
Definition pause (st : State) : State := set_paused true st.

(** [resume] (lines 67-69). *)
Definition resume (st : State) : State := set_paused false st.

(** [removeHandler] (lines 115-118). *)
Definition removeHandler (el : Element) (st : State) : State :=
  let target := getEventTarget el in
  set_listeners (removeEventListener target (listeners st)) st.

(** [addHandler] (lines 106-112). *)
Definition addHandler (el : Element) (st : State) : State :=
  let st := removeHandler el st in
  let target := getEventTarget el in
  set_listeners (addEventListener target (listeners st)) st.

(** [destroy] (lines 72-74). *)
Definition destroy (st : State) : State :=
  fold_left (fun s el => removeHandler el s) (elements st) st.

(** [window.requestAnimationFrame(() => { this.addHandler(element) })]. *)
Definition requestAnimationFrame (el : Element) (st : State) : State :=
  set_frames (frames st ++ [el]) st.

(** The host reaches the next animation frame and runs the callbacks
    waiting for it, in the order they were requested. *)
Definition animationFrame (st : State) : State :=
  fold_left (fun s el => addHandler el s) (frames st) (set_frames [] st).

(** The body of the loop of [validateElements] (lines 83-101) over the
    slots of the array; a slot holding a falsy value is [None]. *)
Fixpoint validateEach (p : Element -> Region) (slots : list (option Element))
    : bool * list Diagnostic :=
  match slots with
  | [] => (true, [])
  | None :: _ =>
      (false, [console_warn (prefix ++ " element is not defined:") None])
  | Some el :: rest =>
      let w1 :=
        if instanceofHTMLElement el && negb (hasOverflow (p el))
        then [console_warn (prefix ++ " element doesn't have overflow:")
                           (Some el)]
        else [] in
      let w2 :=
        if instanceofHTMLElement el && matches_body_star el
           && negb (hasCSSOverflow (p el))
        then [console_warn
                (prefix ++ " no " ++ quoted "overflow: auto;" ++ " or "
                 ++ quoted "overflow: scroll;" ++ " set on element:")
                (Some el)]
        else [] in
      let (ok, ws) := validateEach p rest in
      (ok, w1 ++ w2 ++ ws)
  end.

(** [validateElements] (lines 77-103): the verdict and what it prints. *)
Definition validateElements (p : Element -> Region)
    (slots : list (option Element)) : bool * list Diagnostic :=
  if (List.length slots <? 2)%nat
  then (false,
        [console_error (prefix ++ " Please provide at least two elements")])
  else validateEach p slots.

(** [ignore === element] (line 162); [ignore] may be [undefined]. *)
Definition is_ignored (ignore : option Element) (el : Element) : bool :=
  match ignore with
  | Some ig => Element_eqb ig el
  | None => false
  end.

(** ** Values assigned to [progress] *)

(** A property of the object assigned to [progress]: not there, there
    and [undefined], or a number. *)
Inductive Field : Set :=
| absent
| undefined
| number (v : float).

(** What is assigned to [progress]: [Partial<Progress> | number]. *)
Inductive ProgressValue : Set :=
| value_number (v : float)
| value_object (x y : Field).

(** The object [{ ...this.progress, ...value }]; [None] is [undefined]. *)
Record Merged : Set := mkMerged {
  merged_x : option float;
  merged_y : option float
}.

Definition spread (current : float) (f : Field) : option float :=
  match f with
  | absent => Some current
  | undefined => None
  | number v => Some v
  end.

(** The line [validateProgress] prints about the property [key]. *)
Definition range_error (key : string) : Diagnostic :=
  console_error ("progress." ++ key ++ " must be a number between 0-1").

(** The test of line 255 on one value. *)
Definition out_of_range (value : option float) : bool :=
  match value with
  | None => true
  | Some v => (v <? 0) || (1 <? v)
  end.

(** [validateProgress] (lines 252-261): the verdict and what it prints;
    [Object.entries] yields [x], then [y]. *)
Definition validateProgress (progress : Merged) : bool * list Diagnostic :=
  fold_left
    (fun (acc : bool * list Diagnostic) (entry : string * option float) =>
       let (valid, printed) := acc in
       let (key, value) := entry in
       if out_of_range value
       then (false, printed ++ [range_error key])
       else (valid, printed))
    [("x", merged_x progress); ("y", merged_y progress)]
    (true, []).

(** A property of the merged object read as a number: [undefined] in a
    product is NaN. *)
Definition toNumber (value : option float) : float :=
  match value with
  | Some v => v
  | None => nan
  end.

(** ** Operations that scroll *)

Section Host.

(** The host's [scrollTo]: where an element whose content measures
    [extent] in a viewport of [viewport] ends up when asked to go to
    [requested].  Browsers clamp and may round; the class does not depend
    on how. *)
Variable settle : forall (extent viewport requested : float), float.

(** [target.scrollTo({ top, behavior: "instant" })]. *)
Definition scrollTo_top (top : float) (target : Region) : Region :=
  with_scrollTop (settle (scrollHeight target) (clientHeight target) top)
                 target.

(** [target.scrollTo({ left, behavior: "instant" })]. *)
Definition scrollTo_left (left : float) (target : Region) : Region :=
  with_scrollLeft (settle (scrollWidth target) (clientWidth target) left)
                  target.

(** [setScrollPosition] (lines 177-199), on the properties of the
    target. *)
Definition setScrollPosition (o : Options) (progress : Progress)
    (target : Region) : Region :=
  let availableScroll_x := availableWidth target in
  let availableScroll_y := availableHeight target in
  let target :=
    if vertical o && truthy availableScroll_y
    then scrollTo_top (availableScroll_y * prog_y progress) target
    else target in
  if horizontal o && truthy availableScroll_x
  then scrollTo_left (availableScroll_x * prog_x progress) target
  else target.

(** One round of the loop of [mirrorScrollPositions] (lines 160-173). *)
Definition mirrorOne (progress : Progress) (ignore : option Element)
    (st : State) (el : Element) : State :=
  if is_ignored ignore el then st else
  let st := removeHandler el st in
  let st :=
    set_page (update (page st) el
                (setScrollPosition (options st) progress (page st el)))
             st in
  requestAnimationFrame el st.

(** [mirrorScrollPositions] (lines 156-174). *)
Definition mirrorScrollPositions (progress : Progress)
    (ignore : option Element) (st : State) : State :=
  fold_left (mirrorOne progress ignore) (elements st) st.

(** [handleScroll] up to its [await] (lines 140-147): the event carries
    its [currentTarget], which may be null. *)
Definition handleScroll (currentTarget : option EventTarget) (st : State)
    : State :=
  if paused st then st else
  match currentTarget with
  | None => st
  | Some t =>
      let scrolledElement := getScrollContainer t in
      set_ticks (ticks st ++ [scrolledElement]) st
  end.

(** [handleScroll] after its [await] (lines 149-152). *)
Definition handleScroll_resumed (scrolledElement : Element) (st : State)
    : State :=
  mirrorScrollPositions (getScrollProgress (page st scrolledElement))
                        (Some scrolledElement) st.

(** Modelled from the spec: [nextTick] of [support/utils.js], which is
    not among the sources.  The spec: the handler yields once and goes on
    after the current event-handling turn, before the next.  Here the
    suspended handlers go on, oldest first. *)
Definition nextTick (st : State) : State :=
  fold_left (fun s el => handleScroll_resumed el s) (ticks st)
            (set_ticks [] st).

(** The host delivers a native scroll event on [t]: the handler runs when
    it is registered there, with [event.currentTarget = t]. *)
Definition dispatchScroll (t : EventTarget) (st : State) : State :=
  if existsb (EventTarget_eqb t) (listeners st)
  then handleScroll (Some t) st
  else st.

(** The user scrolls [el] to the offsets [top] and [left]: the page
    changes, the event is delivered and the tick passes. *)
Definition nativeScroll (el : Element) (top left : float) (st : State)
    : State :=
  let r := with_scrollLeft left (with_scrollTop top (page st el)) in
  nextTick (dispatchScroll (getEventTarget el)
                           (set_page (update (page st) el r) st)).

(** ** The [progress] property *)

(** [get progress] (lines 221-223).  [this.elements[0]] is [undefined] on
    an empty array, and the destructuring that opens [getScrollProgress]
    (lines 203-210) raises a [TypeError] on [undefined]. *)
Definition get_progress (st : State) : Outcome Progress :=
  match nth_error (elements st) 0 with
  | Some el => Returned (getScrollProgress (page st el))
  | None =>
      Thrown (TypeError "Cannot destructure property of undefined")
  end.

(** [set progress] (lines 237-249). *)
Definition set_progress (value : ProgressValue) (st : State)
    : Outcome State :=
  let (fx, fy) :=
    match value with
    | value_number v => (number v, number v)
    | value_object fx fy => (fx, fy)
    end in
  do current <- get_progress st;
  let progress :=
    mkMerged (spread (prog_x current) fx) (spread (prog_y current) fy) in
  let (valid, printed) := validateProgress progress in
  let st := log printed st in
  if negb valid then Returned st
  else Returned
         (mirrorScrollPositions
            (mkProgress (toNumber (merged_x progress))
                        (toNumber (merged_y progress)))
            None st).

(** ** Construction *)

(** [constructor] (lines 33-59) on a page [p]. *)
Definition new_ScrollMirror (p : Element -> Region)
    (candidates : list (option Element)) (o : PartialOptions) : State :=
  let els := resolveElements candidates in
  let st := mkState els (mergeOptions defaults o) false p [] [] [] [] in
  let (valid, printed) := validateElements p (map Some els) in
  let st := log printed st in
  if negb valid then st else
  let st := fold_left (fun s el => addHandler el s) (elements st) st in
  if existsb (Element_eqb documentElement) (elements st)
  then mirrorScrollPositions (getScrollProgress (page st documentElement))
                             (Some documentElement) st
  else st.

End Host.

(** ** The two axes

    The source treats [x] and [y] alike, line by line; the statements below
    are made once for both. *)
Inductive Axis : Set := axis_x | axis_y.

(** [scrollLeft] or [scrollTop]. *)
Definition offset (ax : Axis) (el : Region) : float :=
  match ax with axis_x => scrollLeft el | axis_y => scrollTop el end.

(** [scrollWidth] or [scrollHeight]. *)
Definition extent (ax : Axis) (el : Region) : float :=
  match ax with axis_x => scrollWidth el | axis_y => scrollHeight el end.

(** [clientWidth] or [clientHeight]. *)
Definition viewport (ax : Axis) (el : Region) : float :=
  match ax with axis_x => clientWidth el | axis_y => clientHeight el end.

(** The scrollable distance: [availableWidth] or [availableHeight]. *)
Definition available (ax : Axis) (el : Region) : float :=
  match ax with axis_x => availableWidth el | axis_y => availableHeight el end.

(** [progress.x] or [progress.y]. *)
Definition along (ax : Axis) (p : Progress) : float :=
  match ax with axis_x => prog_x p | axis_y => prog_y p end.

(** [options.horizontal] or [options.vertical]. *)
Definition enabled (ax : Axis) (o : Options) : bool :=
  match ax with axis_x => horizontal o | axis_y => vertical o end.

(** The object [set progress] validates when the current progress is
    [current] and [value] is assigned (lines 239-242). *)
Definition merged (current : Progress) (value : ProgressValue) : Merged :=
  match value with
  | value_number v => mkMerged (Some v) (Some v)
  | value_object fx fy =>
      mkMerged (spread (prog_x current) fx) (spread (prog_y current) fy)
  end.

(** The state a call leaves behind, or [st] itself when it raised. *)
Definition after (st : State) (m : Outcome State) : State :=
  match m with
  | Returned st' => st'
  | Thrown _ => st
  end.

(** The handler is on [t], or a callback that puts it there is waiting
    for the next frame. *)
Definition attachedOrPending (st : State) (t : EventTarget) : Prop :=
  In t (listeners st) \/ In t (map getEventTarget (frames st)).

(** Every registered element is listening or about to listen again. *)
Definition covered (st : State) : Prop :=
  forall e : Element,
    In e (elements st) -> attachedOrPending st (getEventTarget e).

(** The event targets of the registered elements. *)
Definition registeredTargets (st : State) : list EventTarget :=
  map getEventTarget (elements st).

(** ** A page to run the class on

    Two scroll containers inside the body: [boxA] (2000 high in a viewport
    of 1000, 600 wide in 400) and [boxB] (1000 high in 500, 300 wide in
    200), [boxB] already scrolled 50 to the right; everything else on the
    page has nothing to scroll. *)
Module Demo.

Definition boxA : Element := element 1 true true.
Definition boxB : Element := element 2 true true.

Definition layout (el : Element) : Region :=
  match el with
  | element 1 _ _ => mkRegion 0 0 600 2000 400 1000 true
  | element 2 _ _ => mkRegion 0 50 300 1000 200 500 true
  | _ => mkRegion 0 0 800 600 800 600 false
  end.

Definition no_options : PartialOptions := mkPartialOptions None None.

(** [new ScrollMirror([boxA, boxB])]. *)
Definition mirror : State :=
  new_ScrollMirror cssom_settle layout [Some boxA; Some boxB] no_options.

(** [mirror] once the user has scrolled [boxA] down to 500 and the
    handler has mirrored that to [boxB]. *)
Definition scrolled : State := nativeScroll cssom_settle boxA 500 0 mirror.

(** [scrolled] one frame later, paused, with [boxA] scrolled on to 800
    by the user. *)
Definition scrolled_while_paused : State :=
  nativeScroll cssom_settle boxA 800 0 (pause (animationFrame scrolled)).

(** [scrolled] with [destroy()] called before the next animation
    frame, and the state once that frame has come. *)
Definition destroyed : State := destroy scrolled.
Definition next_frame : State := animationFrame destroyed.

(** A page whose root scrolls: 1600 high in a viewport of 600, standing
    at 300; the two boxes as in [layout]. *)
Definition long_page (el : Element) : Region :=
  match el with
  | documentElement => mkRegion 300 0 800 1600 800 600 false
  | _ => layout el
  end.

(** [new ScrollMirror([documentElement, boxA, boxB])] on [long_page]. *)
Definition page_mirror : State :=
  new_ScrollMirror cssom_settle long_page
    [Some documentElement; Some boxA; Some boxB] no_options.

(** The [body] element and an SVG element inside it: neither is an
    [HTMLElement] matching ["body *"]. *)
Definition body : Element := element 3 true false.
Definition svg : Element := element 4 false true.

(** An element whose content is a quarter of a pixel wider than its box:
    [scrollWidth] and [clientWidth], which are integers, both read 100,
    and the element, scrolled to its end, stands at 0.25. *)
Definition subpixel : Region := mkRegion 0 0.25 100 100 100 100 true.

(** An element with a scrollable height below the epsilon, 2^-20, in a
    viewport of height 0. *)
Definition hairline : Region := mkRegion 0 0 0 0x1p-20 0 0 true.

(** An element with nothing to scroll sideways (100 wide in 100) whose
    [scrollLeft] nevertheless reads 1. *)
Definition stuck : Region := mkRegion 0 1 100 100 100 100 true.

End Demo.

(** ** Properties *)

(** *** Equality tests *)

Lemma Element_eqb_refl (e : Element) : Element_eqb e e = true.
Proof. unfold Element_eqb. destruct (Element_eq_dec e e); congruence. Qed.

Lemma Element_eqb_eq (a b : Element) : Element_eqb a b = true <-> a = b.
Proof.
  unfold Element_eqb. destruct (Element_eq_dec a b); split; congruence.
Qed.

Lemma Element_eqb_neq (a b : Element) : Element_eqb a b = false <-> a <> b.
Proof.
  unfold Element_eqb. destruct (Element_eq_dec a b); split; congruence.
Qed.

Lemma EventTarget_eqb_eq (a b : EventTarget) :
  EventTarget_eqb a b = true <-> a = b.
Proof.
  unfold EventTarget_eqb. destruct (EventTarget_eq_dec a b); split; congruence.
Qed.

Lemma existsb_Element_In (e : Element) (l : list Element) :
  existsb (Element_eqb e) l = true <-> In e l.
Proof.
  rewrite existsb_exists. split.
  - intros [x [Hin Heq]]. apply Element_eqb_eq in Heq. now subst.
  - intros Hin. exists e. split; [assumption | apply Element_eqb_refl].
Qed.

Lemma existsb_EventTarget_In (t : EventTarget) (l : list EventTarget) :
  existsb (EventTarget_eqb t) l = true <-> In t l.
Proof.
  rewrite existsb_exists. split.
  - intros [x [Hin Heq]]. apply EventTarget_eqb_eq in Heq. now subst.
  - intros Hin. exists t. split; [assumption | now apply EventTarget_eqb_eq].
Qed.

(** *** Listener registrations *)

Lemma removeEventListener_not_In (t : EventTarget) (ls : list EventTarget) :
  ~ In t (removeEventListener t ls).
Proof.
  unfold removeEventListener. rewrite filter_In. intros [_ H].
  apply negb_true_iff in H.
  assert (EventTarget_eqb t t = true) by now apply EventTarget_eqb_eq.
  congruence.
Qed.

Lemma removeEventListener_subset (t u : EventTarget) (ls : list EventTarget) :
  In u (removeEventListener t ls) -> In u ls.
Proof. unfold removeEventListener. rewrite filter_In. tauto. Qed.

Lemma addEventListener_In (t : EventTarget) (ls : list EventTarget) :
  In t (addEventListener t ls).
Proof.
  unfold addEventListener.
  destruct (existsb (EventTarget_eqb t) ls) eqn:E.
  - now apply existsb_EventTarget_In.
  - apply in_or_app. right. now left.
Qed.

(** *** Numbers

    Facts about binary64 values, from the specification of the primitive
    operations in [FloatAxioms] and [SpecFloat]. *)

Lemma is_zero_cases (f : float) : is_zero f = true -> f = 0 \/ f = -0.
Proof.
  unfold is_zero. rewrite eqb_spec. intros H.
  rewrite <- (SF2Prim_Prim2SF f).
  destruct (Prim2SF f) as [s|s| |s m e]; try discriminate H.
  - destruct s; [right|left]; reflexivity.
  - cbn in H. destruct s; discriminate.
  - cbn in H. destruct s; discriminate.
Qed.

Lemma is_nan_Prim2SF (f : float) : is_nan f = true <-> Prim2SF f = S754_nan.
Proof.
  unfold is_nan. rewrite eqb_spec. unfold SFeqb.
  destruct (Prim2SF f) as [s|s| |s m e]; cbn.
  - split; discriminate.
  - destruct s; cbn; split; discriminate.
  - split; reflexivity.
  - rewrite Z.compare_refl, Pos.compare_cont_refl.
    destruct s; cbn; split; discriminate.
Qed.

Lemma shr_1_nonneg (mrs : shr_record) :
  (0 <= shr_m mrs -> 0 <= shr_m (shr_1 mrs))%Z.
Proof.
  destruct mrs as [m r s]. cbn.
  destruct m as [|p|p]; [cbn; lia| |intros H; exfalso; lia].
  destruct p; cbn; lia.
Qed.

Lemma iter_shr_1_nonneg (p : positive) (mrs : shr_record) :
  (0 <= shr_m mrs -> 0 <= shr_m (SpecFloat.iter_pos shr_1 p mrs))%Z.
Proof.
  revert mrs. induction p; intros mrs H; cbn; auto using shr_1_nonneg.
Qed.

Lemma shr_fexp_nonneg (prec emax m e : Z) (l : location) :
  (0 <= m -> 0 <= shr_m (fst (shr_fexp prec emax m e l)))%Z.
Proof.
  intros H. unfold shr_fexp, shr.
  assert (0 <= shr_m (shr_record_of_loc m l))%Z.
  { destruct l as [|[]]; cbn; assumption. }
  destruct (fexp prec emax (Zdigits2 m + e) - e)%Z; cbn; auto.
  now apply iter_shr_1_nonneg.
Qed.

Lemma round_nearest_even_nonneg (m : Z) (l : location) :
  (0 <= m -> 0 <= round_nearest_even m l)%Z.
Proof.
  intros H. destruct l as [|[]]; cbn; try lia.
  destruct (Z.even m); lia.
Qed.

(** Rounding a non-negative mantissa never produces NaN. *)
Lemma binary_round_aux_not_nan (prec emax : Z) (sx : bool) (mx ex : Z)
    (lx : location) :
  (0 <= mx)%Z -> binary_round_aux prec emax sx mx ex lx <> S754_nan.
Proof.
  intros H. unfold binary_round_aux.
  pose proof (shr_fexp_nonneg prec emax mx ex lx H) as H1.
  destruct (shr_fexp prec emax mx ex lx) as [mrs' e']. cbn in H1.
  pose proof (shr_fexp_nonneg prec emax _ e' loc_Exact
                (round_nearest_even_nonneg _ (loc_of_shr_record mrs') H1))
    as H2.
  destruct (shr_fexp prec emax _ e' loc_Exact) as [mrs'' e'']. cbn in H2.
  destruct (shr_m mrs''); [discriminate| |lia].
  destruct (e'' <=? emax - prec)%Z; discriminate.
Qed.

(** A number divided by a finite non-zero number is a number. *)
Lemma SFdiv_finite_not_nan (prec emax : Z) (x : spec_float) (sy : bool)
    (my : positive) (ey : Z) :
  x <> S754_nan -> SFdiv prec emax x (S754_finite sy my ey) <> S754_nan.
Proof.
  intros Hx.
  destruct x as [s|s| |s m e]; cbn; try discriminate; try congruence.
  unfold SFdiv_core_binary.
  set (m' := match _ with 0%Z => _ | Z.pos _ => _ | Z.neg _ => _ end).
  assert (0 <= m')%Z.
  { subst m'. destruct (_ - _ - _)%Z; try lia. apply Z.shiftl_nonneg. lia. }
  pose proof (Z.div_eucl_eq m' (Z.pos my) ltac:(lia)) as Hq.
  pose proof (Z.mod_pos_bound m' (Z.pos my) ltac:(lia)) as Hr.
  unfold Z.modulo in Hr.
  destruct (Z.div_eucl m' (Z.pos my)) as [q r] eqn:E.
  apply binary_round_aux_not_nan. nia.
Qed.

Lemma div_epsilon_not_nan (s : float) :
  is_nan s = false -> is_nan (s / epsilon) = false.
Proof.
  intros H. apply not_true_iff_false. rewrite is_nan_Prim2SF, div_spec.
  apply SFdiv_finite_not_nan.
  rewrite <- is_nan_Prim2SF. congruence.
Qed.

(** With nothing to scroll, [Math.max] returns the epsilon. *)
Lemma Math_max_epsilon_zero (a : float) :
  is_zero a = true -> Math_max epsilon a = epsilon.
Proof.
  intros H. destruct (is_zero_cases a H) as [-> | ->]; reflexivity.
Qed.

Lemma truthy_not_nan (v : float) : truthy v = true -> is_nan v = false.
Proof.
  unfold truthy. rewrite negb_true_iff, orb_false_iff. tauto.
Qed.

(** *** The progress engine *)

(** What [getScrollProgress] returns on an axis with no scrollable
    distance, whatever the offset. *)
Lemma getScrollProgress_x_no_distance (el : Region) :
  is_zero (availableWidth el) = true ->
  prog_x (getScrollProgress el)
  = if truthy (scrollLeft el) then scrollLeft el / epsilon else 0.
Proof.
  intros H. unfold getScrollProgress.
  rewrite (Math_max_epsilon_zero _ H). reflexivity.
Qed.

Lemma getScrollProgress_y_no_distance (el : Region) :
  is_zero (availableHeight el) = true ->
  prog_y (getScrollProgress el)
  = if truthy (scrollTop el) then scrollTop el / epsilon else 0.
Proof.
  intros H. unfold getScrollProgress.
  rewrite (Math_max_epsilon_zero _ H). reflexivity.
Qed.

(** What the code computes on an axis with no scrollable distance: 0 when
    the scroll offset on that axis is a zero (or NaN), and the offset
    divided by the epsilon for any other offset; never NaN. *)
Theorem getScrollProgress_no_distance (ax : Axis) (el : Region) :
  is_zero (available ax el) = true ->
  along ax (getScrollProgress el)
  = (if truthy (offset ax el) then offset ax el / epsilon else 0)
  /\ is_nan (along ax (getScrollProgress el)) = false.
Proof.
  intros H.
  assert (E : along ax (getScrollProgress el)
              = if truthy (offset ax el) then offset ax el / epsilon else 0).
  { destruct ax; cbn [along available offset] in *.
    - now apply getScrollProgress_x_no_distance.
    - now apply getScrollProgress_y_no_distance. }
  split; [exact E|]. rewrite E.
  destruct (truthy (offset ax el)) eqn:T; [|reflexivity].
  apply div_epsilon_not_nan. now apply truthy_not_nan.
Qed.

(** The theorem above at [Demo.stuck], whose horizontal offset reads 1,
    and at [Demo.layout documentElement], which stands at 0. *)
Lemma getScrollProgress_no_distance_witness :
  (along axis_x (getScrollProgress Demo.stuck) = 1 / epsilon
   /\ is_nan (along axis_x (getScrollProgress Demo.stuck)) = false)
  /\ (along axis_y (getScrollProgress (Demo.layout documentElement)) = 0
      /\ is_nan (along axis_y
                   (getScrollProgress (Demo.layout documentElement)))
         = false).
Proof.
  split.
  - apply (getScrollProgress_no_distance axis_x Demo.stuck). reflexivity.
  - apply (getScrollProgress_no_distance axis_y
             (Demo.layout documentElement)).
    reflexivity.
Defined.

(** [Demo.stuck] has no horizontal distance and its horizontal progress
    is 1 / 0.00001, not 0. *)
Lemma getScrollProgress_no_distance_nonzero :
  is_zero (available axis_x Demo.stuck) = true
  /\ along axis_x (getScrollProgress Demo.stuck) = 1 / epsilon
  /\ ~ (forall (ax : Axis) (el : Region),
          is_zero (available ax el) = true ->
          along ax (getScrollProgress el) = 0).
Proof.
  split; [reflexivity|]. split; [reflexivity|].
  intros H. specialize (H axis_x Demo.stuck eq_refl).
  apply (f_equal is_zero) in H. vm_compute in H. discriminate H.
Qed.

(** C2 at the failing input.  [Demo.subpixel] has no scrollable distance
    sideways, its scroll extent being equal to its viewport extent, and
    stands at 0.25.  [getScrollProgress] returns 0.25 / 0.00001 on that
    axis: not 0, above 1, and a value that the test of [validateProgress]
    refuses; [setScrollPosition], for its part, leaves an element with no
    distance where it is. *)
Theorem getScrollProgress_no_distance_out_of_range :
  scrollWidth Demo.subpixel = clientWidth Demo.subpixel
  /\ is_zero (available axis_x Demo.subpixel) = true
  /\ along axis_x (getScrollProgress Demo.subpixel) = 0.25 / epsilon
  /\ is_zero (along axis_x (getScrollProgress Demo.subpixel)) = false
  /\ (1 <? along axis_x (getScrollProgress Demo.subpixel)) = true
  /\ out_of_range (Some (along axis_x (getScrollProgress Demo.subpixel)))
     = true
  /\ setScrollPosition cssom_settle defaults (mkProgress 0.5 0.5)
       Demo.subpixel
     = Demo.subpixel.
Proof. repeat split; reflexivity. Qed.

Section Mirroring.

Variable settle : forall (extent viewport requested : float), float.

(** The offset [setScrollPosition] leaves on an axis: the host's answer
    to the scaled progress when the axis is enabled and has a distance
    to scroll, the old offset otherwise. *)
Lemma setScrollPosition_offset (ax : Axis) (o : Options) (p : Progress)
    (r : Region) :
  offset ax (setScrollPosition settle o p r)
  = if enabled ax o && truthy (available ax r)
    then settle (extent ax r) (viewport ax r) (available ax r * along ax p)
    else offset ax r.
Proof.
  unfold setScrollPosition.
  destruct ax; cbn [offset enabled available extent viewport along];
    destruct (vertical o && truthy (availableHeight r));
    destruct (horizontal o && truthy (availableWidth r));
    reflexivity.
Qed.

(** [setScrollPosition] touches nothing but the two offsets. *)
Lemma setScrollPosition_extents (o : Options) (p : Progress) (r : Region) :
  scrollWidth (setScrollPosition settle o p r) = scrollWidth r
  /\ scrollHeight (setScrollPosition settle o p r) = scrollHeight r
  /\ clientWidth (setScrollPosition settle o p r) = clientWidth r
  /\ clientHeight (setScrollPosition settle o p r) = clientHeight r
  /\ cssOverflow (setScrollPosition settle o p r) = cssOverflow r.
Proof.
  unfold setScrollPosition.
  destruct (vertical o && truthy (availableHeight r));
    destruct (horizontal o && truthy (availableWidth r));
    repeat split; reflexivity.
Qed.

Lemma setScrollPosition_idempotent (o : Options) (p : Progress)
    (r : Region) :
  setScrollPosition settle o p (setScrollPosition settle o p r)
  = setScrollPosition settle o p r.
Proof.
  unfold setScrollPosition.
  destruct (vertical o && truthy (availableHeight r)) eqn:V;
    destruct (horizontal o && truthy (availableWidth r)) eqn:Hz;
    unfold availableHeight, availableWidth in *; cbn;
    rewrite ?V, ?Hz; reflexivity.
Qed.

(** The written offset does not depend on the offsets the region had. *)
Lemma setScrollPosition_forgets (ax : Axis) (o : Options) (p : Progress)
    (r : Region) (top left : float) :
  enabled ax o && truthy (available ax r) = true ->
  offset ax (setScrollPosition settle o p
               (with_scrollLeft left (with_scrollTop top r)))
  = offset ax (setScrollPosition settle o p r).
Proof.
  intros H. rewrite !setScrollPosition_offset.
  destruct ax; cbn [enabled available extent viewport along] in *;
    unfold availableWidth, availableHeight in *; cbn; rewrite H;
    reflexivity.
Qed.

(** **** One mirror pass *)

Lemma mirrorOne_static (p : Progress) (ig : option Element) (st : State)
    (el : Element) :
  elements (mirrorOne settle p ig st el) = elements st
  /\ options (mirrorOne settle p ig st el) = options st
  /\ paused (mirrorOne settle p ig st el) = paused st
  /\ ticks (mirrorOne settle p ig st el) = ticks st
  /\ console (mirrorOne settle p ig st el) = console st.
Proof.
  unfold mirrorOne. destruct (is_ignored ig el); repeat split; reflexivity.
Qed.

Lemma mirrorOne_page (p : Progress) (ig : option Element) (st : State)
    (el e : Element) :
  page (mirrorOne settle p ig st el) e
  = if Element_eqb e el && negb (is_ignored ig el)
    then setScrollPosition settle (options st) p (page st el)
    else page st e.
Proof.
  unfold mirrorOne.
  destruct (is_ignored ig el); cbn.
  - now rewrite andb_false_r.
  - unfold update. now rewrite andb_true_r.
Qed.

Lemma mirror_fold_static (p : Progress) (ig : option Element)
    (l : list Element) (st : State) :
  elements (fold_left (mirrorOne settle p ig) l st) = elements st
  /\ options (fold_left (mirrorOne settle p ig) l st) = options st
  /\ paused (fold_left (mirrorOne settle p ig) l st) = paused st
  /\ ticks (fold_left (mirrorOne settle p ig) l st) = ticks st
  /\ console (fold_left (mirrorOne settle p ig) l st) = console st.
Proof.
  revert st. induction l as [|a l IH]; intros st; cbn.
  - repeat split; reflexivity.
  - destruct (IH (mirrorOne settle p ig st a)) as (E1 & E2 & E3 & E4 & E5).
    destruct (mirrorOne_static p ig st a) as (F1 & F2 & F3 & F4 & F5).
    repeat split; congruence.
Qed.

(** After a pass over [l], every element of [l] other than the ignored
    one holds the position [setScrollPosition] gives it, and the rest of
    the page is as it was. *)
Lemma mirror_fold_page (p : Progress) (ig : option Element)
    (l : list Element) (st : State) (e : Element) :
  page (fold_left (mirrorOne settle p ig) l st) e
  = if existsb (Element_eqb e) l && negb (is_ignored ig e)
    then setScrollPosition settle (options st) p (page st e)
    else page st e.
Proof.
  revert st. induction l as [|a l IH]; intros st; cbn [fold_left existsb].
  - reflexivity.
  - rewrite IH, mirrorOne_page.
    destruct (mirrorOne_static p ig st a) as (_ & -> & _).
    destruct (Element_eqb e a) eqn:E.
    + apply Element_eqb_eq in E. subst a. cbn [orb andb].
      destruct (is_ignored ig e); cbn [negb andb].
      * now rewrite andb_false_r.
      * rewrite andb_true_r.
        destruct (existsb (Element_eqb e) l);
          [apply setScrollPosition_idempotent | reflexivity].
    + cbn [orb andb]. reflexivity.
Qed.

Lemma mirrorScrollPositions_page (p : Progress) (ig : option Element)
    (st : State) (e : Element) :
  page (mirrorScrollPositions settle p ig st) e
  = if existsb (Element_eqb e) (elements st) && negb (is_ignored ig e)
    then setScrollPosition settle (options st) p (page st e)
    else page st e.
Proof. apply mirror_fold_page. Qed.

Lemma mirrorScrollPositions_static (p : Progress) (ig : option Element)
    (st : State) :
  elements (mirrorScrollPositions settle p ig st) = elements st
  /\ options (mirrorScrollPositions settle p ig st) = options st
  /\ paused (mirrorScrollPositions settle p ig st) = paused st
  /\ ticks (mirrorScrollPositions settle p ig st) = ticks st
  /\ console (mirrorScrollPositions settle p ig st) = console st.
Proof. apply mirror_fold_static. Qed.

(** C7.  Applying a progress to a region twice leaves it where applying
    it once does; the offset written on an axis does not depend on the
    offsets the region had; and a second mirror pass with the same
    progress moves no element of the page. *)
Theorem mirroring_idempotent (o : Options) (p : Progress) (r : Region) :
  setScrollPosition settle o p (setScrollPosition settle o p r)
  = setScrollPosition settle o p r
  /\ (forall (ax : Axis) (top left : float),
        enabled ax o && truthy (available ax r) = true ->
        offset ax (setScrollPosition settle o p
                     (with_scrollLeft left (with_scrollTop top r)))
        = offset ax (setScrollPosition settle o p r))
  /\ (forall (ig : option Element) (st : State) (e : Element),
        page (mirrorScrollPositions settle p ig
                (mirrorScrollPositions settle p ig st)) e
        = page (mirrorScrollPositions settle p ig st) e).
Proof.
  split; [apply setScrollPosition_idempotent|]. split.
  - intros ax top left H. now apply setScrollPosition_forgets.
  - intros ig st e. rewrite !mirrorScrollPositions_page.
    destruct (mirrorScrollPositions_static p ig st) as (-> & -> & _).
    destruct (existsb (Element_eqb e) (elements st) && negb (is_ignored ig e));
      [apply setScrollPosition_idempotent | reflexivity].
Qed.

End Mirroring.

(** *** The [progress] property *)

Lemma validateProgress_unfold (m : Merged) :
  validateProgress m
  = (negb (out_of_range (merged_x m)) && negb (out_of_range (merged_y m)),
     (if out_of_range (merged_x m) then [range_error "x"] else [])
     ++ (if out_of_range (merged_y m) then [range_error "y"] else [])).
Proof.
  unfold validateProgress, range_error. cbn.
  destruct (out_of_range (merged_x m)), (out_of_range (merged_y m));
    reflexivity.
Qed.

(** NaN passes the test of line 255: it is a number, and it is neither
    below 0 nor above 1. *)
Lemma validateProgress_NaN :
  validateProgress (mkMerged (Some nan) (Some nan)) = (true, []).
Proof. reflexivity. Qed.

Section ProgressProperty.

Variable settle : forall (extent viewport requested : float), float.

Lemma get_progress_first (st : State) (el0 : Element)
    (rest : list Element) :
  elements st = el0 :: rest ->
  get_progress st = Returned (getScrollProgress (page st el0)).
Proof. unfold get_progress. now intros ->. Qed.

Lemma set_progress_unfold (value : ProgressValue) (st : State)
    (el0 : Element) (rest : list Element) :
  elements st = el0 :: rest ->
  set_progress settle value st
  = let m := merged (getScrollProgress (page st el0)) value in
    let st' := log (snd (validateProgress m)) st in
    if fst (validateProgress m)
    then Returned
           (mirrorScrollPositions settle
              (mkProgress (toNumber (merged_x m)) (toNumber (merged_y m)))
              None st')
    else Returned st'.
Proof.
  intros E. unfold set_progress.
  destruct value as [v | fx fy]; rewrite (get_progress_first st el0 rest E);
    cbn [bind merged spread];
    match goal with
    | |- context [validateProgress ?m] =>
        destruct (validateProgress m) as [[|] printed]
    end; reflexivity.
Qed.

(** A write with an axis below 0, above 1 or not a number is refused
    whole: one line per such axis is printed and nothing else changes. *)
Lemma set_progress_rejected (value : ProgressValue) (st : State)
    (el0 : Element) (rest : list Element) :
  elements st = el0 :: rest ->
  let m := merged (getScrollProgress (page st el0)) value in
  out_of_range (merged_x m) || out_of_range (merged_y m) = true ->
  set_progress settle value st
  = Returned
      (log ((if out_of_range (merged_x m) then [range_error "x"] else [])
            ++ (if out_of_range (merged_y m) then [range_error "y"] else []))
           st).
Proof.
  intros E m H. rewrite (set_progress_unfold value st el0 rest E).
  fold m. cbv zeta. rewrite validateProgress_unfold. cbn [fst snd].
  destruct (out_of_range (merged_x m)), (out_of_range (merged_y m));
    try discriminate H; reflexivity.
Qed.

End ProgressProperty.

Section ProgressWrites.

Variable settle : forall (extent viewport requested : float), float.

(** An accepted write is one mirror pass over all the elements, with
    nothing printed. *)
Lemma set_progress_accepted (value : ProgressValue) (st : State)
    (el0 : Element) (rest : list Element) :
  elements st = el0 :: rest ->
  out_of_range
    (merged_x (merged (getScrollProgress (page st el0)) value)) = false ->
  out_of_range
    (merged_y (merged (getScrollProgress (page st el0)) value)) = false ->
  set_progress settle value st
  = Returned
      (mirrorScrollPositions settle
         (mkProgress
            (toNumber
               (merged_x (merged (getScrollProgress (page st el0)) value)))
            (toNumber
               (merged_y (merged (getScrollProgress (page st el0)) value))))
         None (log [] st)).
Proof.
  intros E Hx Hy. rewrite (set_progress_unfold settle value st el0 rest E).
  cbv zeta. rewrite validateProgress_unfold, Hx, Hy. reflexivity.
Qed.

(** C4, as the code has it.  Assigning [{ y: v }] with [v] in range, on
    an instance whose first element has a horizontal progress in range,
    is accepted and prints nothing.  Every registered element then has,
    on each enabled axis on which it has a distance to scroll, the offset
    the host gives for that distance times the merged progress: [v]
    vertically, the first element's horizontal progress horizontally.  On
    an axis that is disabled or has no distance the offset stays, and so
    does every element that is not registered. *)
Theorem set_progress_y_only (st : State) (el0 : Element)
    (rest : list Element) (v : float) :
  elements st = el0 :: rest ->
  out_of_range (Some v) = false ->
  out_of_range (Some (prog_x (getScrollProgress (page st el0)))) = false ->
  exists st' : State,
    set_progress settle (value_object absent (number v)) st = Returned st'
    /\ console st' = console st
    /\ (forall (e : Element) (ax : Axis),
          In e (elements st) ->
          offset ax (page st' e)
          = if enabled ax (options st) && truthy (available ax (page st e))
            then settle (extent ax (page st e)) (viewport ax (page st e))
                   (available ax (page st e)
                    * along ax
                        (mkProgress
                           (prog_x (getScrollProgress (page st el0))) v))
            else offset ax (page st e))
    /\ (forall e : Element, ~ In e (elements st) -> page st' e = page st e).
Proof.
  intros E Hv Hx.
  rewrite (set_progress_accepted (value_object absent (number v))
             st el0 rest E Hx Hv).
  cbn [merged spread merged_x merged_y toNumber].
  eexists. split; [reflexivity|]. split; [|split].
  - destruct (mirrorScrollPositions_static settle
                (mkProgress (prog_x (getScrollProgress (page st el0))) v)
                None (log [] st)) as (_ & _ & _ & _ & ->).
    cbn. apply app_nil_r.
  - intros e ax Hin. rewrite mirrorScrollPositions_page.
    cbn [log elements page options is_ignored negb].
    apply existsb_Element_In in Hin. rewrite Hin. cbn [andb].
    apply setScrollPosition_offset.
  - intros e Hout. rewrite mirrorScrollPositions_page.
    cbn [log elements page options is_ignored negb].
    destruct (existsb (Element_eqb e) (elements st)) eqn:X; [|reflexivity].
    apply existsb_Element_In in X. contradiction.
Qed.

(** C5 at the failing input.  On the instance built from no candidate,
    reading [progress] raises, and so does assigning to it. *)
Theorem progress_of_empty_instance_throws (p : Element -> Region)
    (o : PartialOptions) (value : ProgressValue) :
  elements (new_ScrollMirror settle p [] o) = []
  /\ get_progress (new_ScrollMirror settle p [] o)
     = Thrown (TypeError "Cannot destructure property of undefined")
  /\ set_progress settle value (new_ScrollMirror settle p [] o)
     = Thrown (TypeError "Cannot destructure property of undefined").
Proof.
  split; [reflexivity|]. split; [reflexivity|].
  destruct value; reflexivity.
Qed.

End ProgressWrites.

(** The theorem above on [Demo.mirror], for [{ y: 0.5 }]. *)
Lemma set_progress_y_only_witness :
  exists st' : State,
    set_progress cssom_settle (value_object absent (number 0.5)) Demo.mirror
    = Returned st'
    /\ console st' = console Demo.mirror
    /\ (forall (e : Element) (ax : Axis),
          In e (elements Demo.mirror) ->
          offset ax (page st' e)
          = if enabled ax (options Demo.mirror)
               && truthy (available ax (page Demo.mirror e))
            then cssom_settle (extent ax (page Demo.mirror e))
                   (viewport ax (page Demo.mirror e))
                   (available ax (page Demo.mirror e)
                    * along ax
                        (mkProgress
                           (prog_x (getScrollProgress
                                      (page Demo.mirror Demo.boxA))) 0.5))
            else offset ax (page Demo.mirror e))
    /\ (forall e : Element,
          ~ In e (elements Demo.mirror) -> page st' e = page Demo.mirror e).
Proof.
  apply (set_progress_y_only cssom_settle Demo.mirror Demo.boxA [Demo.boxB]);
    reflexivity.
Defined.

(** C4 as the spec words it fails.  On [Demo.mirror], where horizontal
    mirroring is on and [boxB] stands 50 to the right, assigning
    [{ y: 0.5 }] moves [boxB] horizontally, to 0: the horizontal progress
    of the first element, [boxA], is written to it. *)
Lemma set_progress_y_only_moves_horizontally :
  horizontal (options Demo.mirror) = true
  /\ throws (set_progress cssom_settle
               (value_object absent (number 0.5)) Demo.mirror) = false
  /\ scrollLeft (page Demo.mirror Demo.boxB) = 50
  /\ scrollLeft
       (page (after Demo.mirror
                (set_progress cssom_settle
                   (value_object absent (number 0.5)) Demo.mirror))
             Demo.boxB) = 0
  /\ scrollLeft
       (page (after Demo.mirror
                (set_progress cssom_settle
                   (value_object absent (number 0.5)) Demo.mirror))
             Demo.boxB)
     <> scrollLeft (page Demo.mirror Demo.boxB).
Proof.
  repeat split; try reflexivity.
  intros H. apply (f_equal is_zero) in H. vm_compute in H. discriminate H.
Qed.

(** C1 at the failing input.  [progress = NaN] on [Demo.scrolled], where
    [boxA] stands at 500 and [boxB] at 250: the merged value passes
    [validateProgress], nothing is printed, and the mirror pass runs,
    sending both elements to the offset the host gives for NaN. *)
Theorem set_progress_NaN_not_rejected :
  validateProgress (merged (getScrollProgress
                              (page Demo.scrolled Demo.boxA))
                           (value_number nan))
  = (true, [])
  /\ throws (set_progress cssom_settle (value_number nan) Demo.scrolled)
     = false
  /\ console (after Demo.scrolled
                (set_progress cssom_settle (value_number nan) Demo.scrolled))
     = []
  /\ scrollTop (page Demo.scrolled Demo.boxA) = 500
  /\ scrollTop (page Demo.scrolled Demo.boxB) = 250
  /\ scrollTop
       (page (after Demo.scrolled
                (set_progress cssom_settle (value_number nan) Demo.scrolled))
             Demo.boxA) = 0
  /\ scrollTop
       (page (after Demo.scrolled
                (set_progress cssom_settle (value_number nan) Demo.scrolled))
             Demo.boxB) = 0.
Proof. repeat split; reflexivity. Qed.

(** The scenario of the spec: [progress = 2] on [Demo.mirror] prints one
    line per axis and leaves the page, the registrations and the frame
    queue as they were. *)
Example set_progress_2_rejected :
  set_progress cssom_settle (value_number 2) Demo.mirror
  = Returned (log [range_error "x"; range_error "y"] Demo.mirror).
Proof.
  apply (set_progress_rejected cssom_settle (value_number 2) Demo.mirror
           Demo.boxA [Demo.boxB]); reflexivity.
Qed.

(** The scenario of the spec: scrolling [boxA] (2000 in 1000) to 500
    brings [boxB] (1000 in 500) to 250. *)
Example scroll_A_500_mirrors_B_250 :
  scrollTop (page Demo.scrolled Demo.boxB) = 250.
Proof. reflexivity. Qed.

(** *** Construction *)

(** [unique] keeps exactly the elements not seen before, once each. *)
Lemma unique_In (seen xs : list Element) (e : Element) :
  In e (unique seen xs) <-> In e xs /\ ~ In e seen.
Proof.
  revert seen. induction xs as [|a xs IH]; intros seen; cbn [unique].
  - cbn. tauto.
  - destruct (existsb (Element_eqb a) seen) eqn:X.
    + apply existsb_Element_In in X. rewrite IH. cbn [In].
      split; [tauto|]. intros [[<- | H] N]; [contradiction | tauto].
    + assert (N : ~ In a seen).
      { intros H. apply existsb_Element_In in H. congruence. }
      cbn [In]. rewrite IH. cbn [In].
      destruct (Element_eq_dec a e) as [<- | D]; [tauto|].
      split; [tauto|]. intros [[H | H] N']; [contradiction | tauto].
Qed.

Lemma unique_NoDup (seen xs : list Element) : NoDup (unique seen xs).
Proof.
  revert seen. induction xs as [|a xs IH]; intros seen; cbn [unique].
  - constructor.
  - destruct (existsb (Element_eqb a) seen); [apply IH|].
    constructor; [|apply IH].
    rewrite unique_In. cbn [In]. tauto.
Qed.

(** The elements of an instance are its distinct scroll containers. *)
Lemma resolveElements_distinct (candidates : list (option Element)) :
  NoDup (resolveElements candidates)
  /\ forall e : Element,
       In e (resolveElements candidates)
       <-> exists c : Element,
             In (Some c) candidates /\ e = getScrollContainer (node c).
Proof.
  split; [apply unique_NoDup|].
  intros e. unfold resolveElements. rewrite unique_In, in_map_iff.
  split.
  - intros [(c & <- & Hc) _]. exists c. split; [|reflexivity].
    apply in_flat_map in Hc. destruct Hc as ([c'|] & Hin & Hc).
    + destruct Hc as [-> | []]. exact Hin.
    + destruct Hc.
  - intros (c & Hin & ->). split; [|intros []].
    exists c. split; [reflexivity|].
    apply in_flat_map. exists (Some c). split; [exact Hin | now left].
Qed.

Lemma addHandler_fold_static (l : list Element) (st : State) :
  elements (fold_left (fun s el => addHandler el s) l st) = elements st
  /\ page (fold_left (fun s el => addHandler el s) l st) = page st
  /\ console (fold_left (fun s el => addHandler el s) l st) = console st.
Proof.
  revert st. induction l as [|a l IH]; intros st; cbn [fold_left].
  - repeat split; reflexivity.
  - destruct (IH (addHandler a st)) as (-> & -> & ->).
    repeat split; reflexivity.
Qed.

(** With every slot defined, the loop of [validateElements] runs to its
    end, and each line it prints is about an element. *)
Lemma validateEach_defined (p : Element -> Region) (els : list Element) :
  fst (validateEach p (map Some els)) = true
  /\ forall d : Diagnostic,
       In d (snd (validateEach p (map Some els))) ->
       exists (msg : string) (el : Element), d = console_warn msg (Some el).
Proof.
  induction els as [|a els [IH1 IH2]]; cbn [map validateEach].
  - split; [reflexivity | intros d []].
  - destruct (validateEach p (map Some els)) as [ok ws].
    cbn [fst snd] in *. split; [assumption|].
    intros d Hd. rewrite !in_app_iff in Hd.
    destruct Hd as [Hd | [Hd | Hd]].
    + destruct (instanceofHTMLElement a && negb (hasOverflow (p a)));
        [|contradiction].
      destruct Hd as [<- | []]. eauto.
    + destruct (instanceofHTMLElement a && matches_body_star a
                && negb (hasCSSOverflow (p a))); [|contradiction].
      destruct Hd as [<- | []]. eauto.
    + now apply IH2.
Qed.

(** The loop stops at a slot that holds nothing. *)
Example validateEach_undefined_slot (p : Element -> Region)
    (rest : list (option Element)) :
  validateEach p (None :: rest)
  = (false, [console_warn (prefix ++ " element is not defined:") None]).
Proof. reflexivity. Qed.

Section Lifecycle.

Variable settle : forall (extent viewport requested : float), float.

(** What the constructor settles once and for all: the elements are the
    resolved candidates and the console holds what validation printed. *)
Lemma new_ScrollMirror_static (p : Element -> Region)
    (candidates : list (option Element)) (o : PartialOptions) :
  elements (new_ScrollMirror settle p candidates o)
  = resolveElements candidates
  /\ console (new_ScrollMirror settle p candidates o)
     = snd (validateElements p (map Some (resolveElements candidates))).
Proof.
  unfold new_ScrollMirror.
  destruct (validateElements p (map Some (resolveElements candidates)))
    as [[|] printed]; cbn [negb snd]; [|split; reflexivity].
  set (st1 := fold_left _ _ _).
  assert (E : elements st1 = resolveElements candidates
              /\ console st1 = printed).
  { subst st1.
    match goal with
    | |- context [fold_left ?f ?l ?s] =>
        destruct (addHandler_fold_static l s) as (-> & _ & ->)
    end.
    split; reflexivity. }
  destruct (existsb _ _); [|exact E].
  destruct (mirrorScrollPositions_static settle
              (getScrollProgress (page st1 documentElement))
              (Some documentElement) st1) as (-> & _ & _ & _ & ->).
  exact E.
Qed.

(** C6.  When fewer than two distinct scroll containers are left after
    resolution and deduplication, the constructor prints the error and
    returns an instance with no handler registered anywhere: nothing is
    waiting for a frame or a tick, the page is untouched, and a scroll
    event on any target changes nothing. *)
Theorem construction_below_two_is_inert (p : Element -> Region)
    (candidates : list (option Element)) (o : PartialOptions) :
  (List.length (resolveElements candidates) < 2)%nat ->
  listeners (new_ScrollMirror settle p candidates o) = []
  /\ console (new_ScrollMirror settle p candidates o)
     = [console_error (prefix ++ " Please provide at least two elements")]
  /\ frames (new_ScrollMirror settle p candidates o) = []
  /\ ticks (new_ScrollMirror settle p candidates o) = []
  /\ page (new_ScrollMirror settle p candidates o) = p
  /\ (forall t : EventTarget,
        dispatchScroll t (new_ScrollMirror settle p candidates o)
        = new_ScrollMirror settle p candidates o).
Proof.
  intros H. unfold new_ScrollMirror, validateElements.
  rewrite length_map. apply Nat.ltb_lt in H. rewrite H. cbn [negb].
  repeat split; reflexivity.
Qed.

(** C10.  Whatever the candidates, every slot of the array the
    constructor hands to [validateElements] is defined; the verdict is
    then decided by the number of elements alone, and the line about an
    undefined element is neither printed by the validation nor found on
    the console of the instance. *)
Theorem constructor_elements_are_defined (p : Element -> Region)
    (candidates : list (option Element)) (o : PartialOptions) :
  Forall (fun slot : option Element => slot <> None)
         (map Some (elements (new_ScrollMirror settle p candidates o)))
  /\ map Some (elements (new_ScrollMirror settle p candidates o))
     = map Some (resolveElements candidates)
  /\ fst (validateElements p (map Some (resolveElements candidates)))
     = negb (List.length (resolveElements candidates) <? 2)%nat
  /\ ~ In (console_warn (prefix ++ " element is not defined:") None)
          (snd (validateElements p (map Some (resolveElements candidates))))
  /\ ~ In (console_warn (prefix ++ " element is not defined:") None)
          (console (new_ScrollMirror settle p candidates o)).
Proof.
  destruct (new_ScrollMirror_static p candidates o) as [E C].
  assert (N : ~ In (console_warn (prefix ++ " element is not defined:") None)
                (snd (validateElements p
                        (map Some (resolveElements candidates))))).
  { unfold validateElements. rewrite length_map.
    destruct (List.length (resolveElements candidates) <? 2)%nat.
    - cbn. intros [H | []]. discriminate H.
    - intros H.
      apply (proj2 (validateEach_defined p (resolveElements candidates)))
        in H.
      destruct H as (msg & el & H). discriminate H. }
  split; [|split; [|split; [|split]]].
  - apply Forall_forall. intros slot Hin.
    apply in_map_iff in Hin. destruct Hin as (el & <- & _). discriminate.
  - now rewrite E.
  - unfold validateElements. rewrite length_map.
    destruct (List.length (resolveElements candidates) <? 2)%nat;
      [reflexivity|].
    apply (proj1 (validateEach_defined p (resolveElements candidates))).
  - exact N.
  - rewrite C. exact N.
Qed.

End Lifecycle.

(** The theorem above for [new ScrollMirror([boxA, boxA, null])]: one
    container is left. *)
Lemma construction_below_two_is_inert_witness :
  listeners (new_ScrollMirror cssom_settle Demo.layout
               [Some Demo.boxA; Some Demo.boxA; None] Demo.no_options) = []
  /\ console (new_ScrollMirror cssom_settle Demo.layout
                [Some Demo.boxA; Some Demo.boxA; None] Demo.no_options)
     = [console_error (prefix ++ " Please provide at least two elements")]
  /\ frames (new_ScrollMirror cssom_settle Demo.layout
               [Some Demo.boxA; Some Demo.boxA; None] Demo.no_options) = []
  /\ ticks (new_ScrollMirror cssom_settle Demo.layout
              [Some Demo.boxA; Some Demo.boxA; None] Demo.no_options) = []
  /\ page (new_ScrollMirror cssom_settle Demo.layout
             [Some Demo.boxA; Some Demo.boxA; None] Demo.no_options)
     = Demo.layout
  /\ (forall t : EventTarget,
        dispatchScroll t
          (new_ScrollMirror cssom_settle Demo.layout
             [Some Demo.boxA; Some Demo.boxA; None] Demo.no_options)
        = new_ScrollMirror cssom_settle Demo.layout
            [Some Demo.boxA; Some Demo.boxA; None] Demo.no_options).
Proof.
  apply (construction_below_two_is_inert cssom_settle Demo.layout
           [Some Demo.boxA; Some Demo.boxA; None] Demo.no_options).
  vm_compute. lia.
Defined.

(** *** Pausing, resuming, destroying *)

Lemma removeHandler_fold_listeners (l : list Element) (st : State)
    (t : EventTarget) :
  In t (listeners (fold_left (fun s el => removeHandler el s) l st)) ->
  In t (listeners st) /\ forall e : Element, In e l -> t <> getEventTarget e.
Proof.
  revert st. induction l as [|a l IH]; intros st H; cbn [fold_left] in H.
  - split; [assumption | intros e []].
  - apply IH in H. destruct H as [H1 H2]. cbn [removeHandler listeners
      set_listeners] in H1. split.
    + eapply removeEventListener_subset; eassumption.
    + intros e [<- | Hin]; [|now apply H2].
      intros ->. eapply removeEventListener_not_In; eassumption.
Qed.

(** Right after [destroy] no registered element has the handler on its
    event target. *)
Lemma destroy_detaches (st : State) (e : Element) :
  In e (elements st) -> ~ In (getEventTarget e) (listeners (destroy st)).
Proof.
  intros Hin H. unfold destroy in H.
  apply removeHandler_fold_listeners in H. destruct H as [_ H].
  now apply (H e Hin).
Qed.

(** With no callback waiting, the next frame attaches nothing. *)
Lemma animationFrame_nothing_pending (st : State) :
  frames st = [] -> listeners (animationFrame st) = listeners st.
Proof. unfold animationFrame. now intros ->. Qed.

(** A scroll event on a registered element right after [destroy] finds no
    handler. *)
Lemma destroy_then_scroll_ignored (st : State) (e : Element) :
  In e (elements st) ->
  dispatchScroll (getEventTarget e) (destroy st) = destroy st.
Proof.
  intros Hin. unfold dispatchScroll.
  destruct (existsb (EventTarget_eqb (getEventTarget e))
              (listeners (destroy st))) eqn:X; [|reflexivity].
  apply existsb_EventTarget_In in X.
  now apply destroy_detaches in X.
Qed.

(** The animation frame leaves the flag alone. *)
Lemma animationFrame_paused (st : State) :
  paused (animationFrame st) = paused st /\ page (animationFrame st) = page st.
Proof.
  unfold animationFrame.
  assert (H : forall (l : list Element) (s : State),
            paused (fold_left (fun s0 el => addHandler el s0) l s) = paused s
            /\ page (fold_left (fun s0 el => addHandler el s0) l s) = page s).
  { induction l as [|x l IH]; intros s; cbn [fold_left];
      [split; reflexivity|].
    destruct (IH (addHandler x s)) as [-> ->]. split; reflexivity. }
  destruct (H (frames st) (set_frames [] st)) as [-> ->].
  split; reflexivity.
Qed.

Section Events.

Variable settle : forall (extent viewport requested : float), float.

Lemma resumed_fold_paused (l : list Element) (st : State) :
  paused (fold_left (fun s el => handleScroll_resumed settle el s) l st)
  = paused st.
Proof.
  revert st. induction l as [|a l IH]; intros st; cbn [fold_left].
  - reflexivity.
  - rewrite IH. unfold handleScroll_resumed.
    now destruct (mirrorScrollPositions_static settle
                    (getScrollProgress (page st a)) (Some a) st)
      as (_ & _ & -> & _).
Qed.

(** A state whose flag is set drops every scroll event. *)
Lemma paused_state_drops_events (s : State) (t : EventTarget) :
  paused s = true -> handleScroll (Some t) s = s /\ dispatchScroll t s = s.
Proof.
  intros P.
  assert (H : handleScroll (Some t) s = s).
  { unfold handleScroll. now rewrite P. }
  split; [exact H|].
  unfold dispatchScroll. rewrite H. now destruct (existsb _ _).
Qed.

(** C8.  [pause], called on any state, sets the flag and touches nothing
    else.  A state whose flag is set drops every scroll event; so after
    [pause] a scroll event on any target leaves the state as it is: no
    handler waits for the tick and no element moves.  The flag stays set
    over the tick and the animation frame.  [resume], called on any
    state, clears the flag; after [pause] and then [resume], with no
    earlier handler still waiting, a scroll event on a target that has
    the handler brings every other registered element to the position
    [setScrollPosition] gives it for the progress of the scrolled
    element. *)
Theorem pause_ignores_scroll_until_resume (st : State) (t : EventTarget) :
  (paused (pause st) = true
   /\ elements (pause st) = elements st
   /\ page (pause st) = page st
   /\ listeners (pause st) = listeners st
   /\ ticks (pause st) = ticks st)
  /\ (forall s : State,
        paused s = true ->
        handleScroll (Some t) s = s /\ dispatchScroll t s = s)
  /\ (handleScroll (Some t) (pause st) = pause st
      /\ dispatchScroll t (pause st) = pause st
      /\ nextTick settle (dispatchScroll t (pause st))
         = nextTick settle (pause st)
      /\ (forall e : Element,
            page (dispatchScroll t (pause st)) e = page st e))
  /\ (paused (nextTick settle (pause st)) = true
      /\ paused (animationFrame (pause st)) = true)
  /\ (paused (resume st) = false
      /\ paused (resume (pause st)) = false
      /\ page (resume (pause st)) = page st
      /\ listeners (resume (pause st)) = listeners st)
  /\ (ticks st = [] ->
      In t (listeners st) ->
      forall e : Element,
        In e (elements st) ->
        e <> getScrollContainer t ->
        page (nextTick settle (dispatchScroll t (resume (pause st)))) e
        = setScrollPosition settle (options st)
            (getScrollProgress (page st (getScrollContainer t)))
            (page st e)).
Proof.
  destruct (paused_state_drops_events (pause st) t eq_refl) as [H D].
  split; [repeat split|].
  split; [intros s P; now apply paused_state_drops_events|].
  split; [|split; [|split; [repeat split|]]].
  - split; [exact H|]. split; [exact D|]. rewrite D.
    split; [reflexivity | intros e; reflexivity].
  - split.
    + unfold nextTick. now rewrite resumed_fold_paused.
    + now destruct (animationFrame_paused (pause st)) as [->].
  - intros T L e Hin Hne.
    unfold dispatchScroll.
    apply existsb_EventTarget_In in L.
    cbn [resume pause set_paused listeners]. rewrite L.
    unfold handleScroll. cbn [resume pause set_paused paused ticks].
    rewrite T. cbn [app]. unfold nextTick.
    cbn [set_ticks ticks fold_left]. unfold handleScroll_resumed.
    rewrite mirrorScrollPositions_page.
    cbn [elements page options is_ignored set_ticks resume pause
         set_paused].
    apply existsb_Element_In in Hin. rewrite Hin.
    assert (X : Element_eqb (getScrollContainer t) e = false).
    { apply Element_eqb_neq. congruence. }
    rewrite X. reflexivity.
Qed.

End Events.

(** The theorem above on [Demo.scrolled_while_paused], where [boxA] has
    been scrolled on to 800: after [pause] the event on [boxA] is dropped
    and [boxB] stays at 250; after [resume] the next event on [boxA],
    which stands at 800 of 1000, brings [boxB] to 400 of 500. *)
Lemma pause_ignores_scroll_until_resume_witness :
  paused (pause Demo.scrolled_while_paused) = true
  /\ scrollTop (page Demo.scrolled_while_paused Demo.boxA) = 800
  /\ dispatchScroll (node Demo.boxA) (pause Demo.scrolled_while_paused)
     = pause Demo.scrolled_while_paused
  /\ scrollTop
       (page (dispatchScroll (node Demo.boxA)
                (pause Demo.scrolled_while_paused)) Demo.boxB) = 250
  /\ paused (resume (pause Demo.scrolled_while_paused)) = false
  /\ scrollTop
       (page (nextTick cssom_settle
                (dispatchScroll (node Demo.boxA)
                   (resume (pause Demo.scrolled_while_paused))))
             Demo.boxB) = 400.
Proof.
  destruct (pause_ignores_scroll_until_resume cssom_settle
              Demo.scrolled_while_paused (node Demo.boxA))
    as ((P & _) & _ & (_ & D & _ & G) & _ & (_ & R & _) & M).
  split; [exact P|]. split; [reflexivity|]. split; [exact D|].
  split; [now rewrite G|]. split; [exact R|].
  rewrite (M eq_refl (or_introl eq_refl) Demo.boxB
             (or_intror (or_introl eq_refl))).
  - reflexivity.
  - intros H. discriminate H.
Defined.

(** C9 at the failing input.  [destroy()] is called on [Demo.scrolled],
    where the callback that re-attaches the handler of [boxB] is still
    waiting for the next animation frame.  [destroy] leaves no handler;
    the frame then puts the handler of [boxB] back, and scrolling [boxB]
    to 100 moves [boxA] from 500 to 200. *)
Theorem destroy_undone_by_pending_frame :
  elements Demo.scrolled = [Demo.boxA; Demo.boxB]
  /\ frames Demo.scrolled = [Demo.boxB]
  /\ listeners Demo.destroyed = []
  /\ listeners Demo.next_frame = [node Demo.boxB]
  /\ scrollTop (page Demo.next_frame Demo.boxA) = 500
  /\ scrollTop
       (page (nativeScroll cssom_settle Demo.boxB 100 0 Demo.next_frame)
             Demo.boxA) = 200.
Proof. repeat split; reflexivity. Qed.

(** Writing a progress and reading it back on an element whose scrollable
    distance is below the epsilon: [Demo.hairline], 2^-20 to scroll, is
    sent to 2^-21 for the progress 0.5 and then reads less than 0.0625,
    because the reading divides by the epsilon and not by the distance.
    Scroll extents are whole numbers in a browser, so no element there
    has such a distance. *)
Example progress_roundtrip_below_epsilon :
  truthy (available axis_y Demo.hairline) = true
  /\ scrollTop (setScrollPosition cssom_settle defaults (mkProgress 0.5 0.5)
                  Demo.hairline) = 0x1p-21
  /\ (along axis_y
        (getScrollProgress
           (setScrollPosition cssom_settle defaults (mkProgress 0.5 0.5)
              Demo.hairline)) <? 0.0625) = true.
Proof. repeat split; reflexivity. Qed.

(** Writing a progress and reading it back, on [Demo.mirror]:
    [{ x: 0.25, y: 0.5 }] is read back from [boxB] as written. *)
Example progress_roundtrip_example :
  getScrollProgress
    (page (after Demo.mirror
             (set_progress cssom_settle
                (value_object (number 0.25) (number 0.5)) Demo.mirror))
          Demo.boxB)
  = mkProgress 0.25 0.5.
Proof. reflexivity. Qed.

(** ** Further properties of the class *)

(** Two states with the same components are the same state. *)
Lemma State_ext (s1 s2 : State) :
  elements s1 = elements s2 -> options s1 = options s2 ->
  paused s1 = paused s2 -> page s1 = page s2 ->
  listeners s1 = listeners s2 -> frames s1 = frames s2 ->
  ticks s1 = ticks s2 -> console s1 = console s2 ->
  s1 = s2.
Proof.
  destruct s1, s2. cbn. intros. subst. reflexivity.
Qed.

(** *** Handlers *)

Lemma removeEventListener_In (t u : EventTarget) (ls : list EventTarget) :
  In u (removeEventListener t ls) <-> In u ls /\ u <> t.
Proof.
  unfold removeEventListener. rewrite filter_In, negb_true_iff.
  split; intros [H1 H2]; split; try assumption.
  - intros ->. assert (EventTarget_eqb t t = true)
      by now apply EventTarget_eqb_eq. congruence.
  - destruct (EventTarget_eqb t u) eqn:E; [|reflexivity].
    apply EventTarget_eqb_eq in E. congruence.
Qed.

Lemma removeEventListener_count_same (t : EventTarget)
    (ls : list EventTarget) :
  count_occ EventTarget_eq_dec (removeEventListener t ls) t = 0%nat.
Proof. apply count_occ_not_In, removeEventListener_not_In. Qed.

Lemma removeEventListener_count_other (t u : EventTarget)
    (ls : list EventTarget) :
  u <> t ->
  count_occ EventTarget_eq_dec (removeEventListener t ls) u
  = count_occ EventTarget_eq_dec ls u.
Proof.
  intros N. induction ls as [|a ls IH]; [reflexivity|].
  cbn [removeEventListener filter]. fold (removeEventListener t ls).
  destruct (EventTarget_eqb t a) eqn:E; cbn [negb].
  - apply EventTarget_eqb_eq in E. subst a. rewrite IH.
    cbn [count_occ].
    destruct (EventTarget_eq_dec t u) as [Heq | Hne];
      [exfalso; apply N; now symmetry | reflexivity].
  - cbn [count_occ]. rewrite IH. reflexivity.
Qed.

Lemma removeEventListener_idempotent (t : EventTarget)
    (ls : list EventTarget) :
  removeEventListener t (removeEventListener t ls) = removeEventListener t ls.
Proof.
  unfold removeEventListener. induction ls as [|a ls IH]; [reflexivity|].
  cbn [filter]. destruct (negb (EventTarget_eqb t a)) eqn:E.
  - cbn [filter]. rewrite E, IH. reflexivity.
  - exact IH.
Qed.

(** The registrations [addHandler] leaves: the old ones without the
    target, then the target. *)
Lemma addHandler_listeners (el : Element) (st : State) :
  listeners (addHandler el st)
  = removeEventListener (getEventTarget el) (listeners st)
    ++ [getEventTarget el].
Proof.
  unfold addHandler, removeHandler. cbn [listeners set_listeners].
  unfold addEventListener.
  destruct (existsb _ _) eqn:X; [|reflexivity].
  apply existsb_EventTarget_In in X.
  now apply removeEventListener_not_In in X.
Qed.

Lemma addHandler_In (el : Element) (st : State) (t : EventTarget) :
  In t (listeners (addHandler el st))
  <-> In t (listeners st) \/ t = getEventTarget el.
Proof.
  rewrite addHandler_listeners, in_app_iff, removeEventListener_In.
  cbn [In]. destruct (EventTarget_eq_dec t (getEventTarget el)) as [-> | N].
  - tauto.
  - split; [intros [[H _] | [H | []]]; auto | intros [H | H]; tauto].
Qed.

(** X1.  [addHandler] leaves the handler registered exactly once on the
    event target of the element, however often it was registered there
    before, and leaves the registrations on every other target as they
    were; calling it a second time changes nothing. *)
Theorem addHandler_exactly_once (el : Element) (st : State) :
  count_occ EventTarget_eq_dec (listeners (addHandler el st))
            (getEventTarget el) = 1%nat
  /\ (forall u : EventTarget,
        u <> getEventTarget el ->
        count_occ EventTarget_eq_dec (listeners (addHandler el st)) u
        = count_occ EventTarget_eq_dec (listeners st) u)
  /\ addHandler el (addHandler el st) = addHandler el st.
Proof.
  split; [|split].
  - rewrite addHandler_listeners, count_occ_app,
      removeEventListener_count_same.
    cbn [count_occ].
    destruct (EventTarget_eq_dec _ _); [reflexivity | congruence].
  - intros u N. rewrite addHandler_listeners, count_occ_app,
      (removeEventListener_count_other _ _ _ N).
    cbn [count_occ].
    destruct (EventTarget_eq_dec (getEventTarget el) u); [congruence|].
    apply Nat.add_0_r.
  - assert (E : listeners (addHandler el (addHandler el st))
                = listeners (addHandler el st)).
    { rewrite (addHandler_listeners el (addHandler el st)).
      rewrite addHandler_listeners.
      unfold removeEventListener at 1. rewrite filter_app.
      fold (removeEventListener (getEventTarget el)
              (removeEventListener (getEventTarget el) (listeners st))).
      rewrite removeEventListener_idempotent. cbn [filter].
      assert (X : EventTarget_eqb (getEventTarget el) (getEventTarget el)
                  = true) by now apply EventTarget_eqb_eq.
      rewrite X. cbn [negb]. now rewrite app_nil_r. }
    apply State_ext; try reflexivity. exact E.
Qed.

(** What a run of [removeHandler] over [l] leaves: everything but the
    registrations as it was, and no registration on a target of [l]. *)
Lemma removeHandler_fold_static (l : list Element) (st : State) :
  elements (fold_left (fun s el => removeHandler el s) l st) = elements st
  /\ options (fold_left (fun s el => removeHandler el s) l st) = options st
  /\ paused (fold_left (fun s el => removeHandler el s) l st) = paused st
  /\ page (fold_left (fun s el => removeHandler el s) l st) = page st
  /\ frames (fold_left (fun s el => removeHandler el s) l st) = frames st
  /\ ticks (fold_left (fun s el => removeHandler el s) l st) = ticks st
  /\ console (fold_left (fun s el => removeHandler el s) l st) = console st.
Proof.
  revert st. induction l as [|a l IH]; intros st; cbn [fold_left].
  - repeat split; reflexivity.
  - destruct (IH (removeHandler a st)) as (-> & -> & -> & -> & -> & -> & ->).
    repeat split; reflexivity.
Qed.

Lemma removeHandler_fold_count (l : list Element) (st : State)
    (u : EventTarget) :
  (forall e : Element, In e l -> u <> getEventTarget e) ->
  count_occ EventTarget_eq_dec
    (listeners (fold_left (fun s el => removeHandler el s) l st)) u
  = count_occ EventTarget_eq_dec (listeners st) u.
Proof.
  revert st. induction l as [|a l IH]; intros st H; cbn [fold_left].
  - reflexivity.
  - rewrite IH by (intros e He; apply H; now right).
    cbn [removeHandler listeners set_listeners].
    apply removeEventListener_count_other. apply H. now left.
Qed.

Lemma filter_filter {A : Type} (f g : A -> bool) (l : list A) :
  filter f (filter g l) = filter (fun x => g x && f x) l.
Proof.
  induction l as [|a l IH]; [reflexivity|]. cbn [filter].
  destruct (g a); cbn [filter andb]; [|exact IH].
  destruct (f a); now rewrite IH.
Qed.

(** The registrations a run of [removeHandler] over [l] leaves. *)
Lemma removeHandler_fold_filter (l : list Element) (st : State) :
  listeners (fold_left (fun s el => removeHandler el s) l st)
  = filter (fun u => negb (existsb
                             (fun e => EventTarget_eqb (getEventTarget e) u)
                             l))
           (listeners st).
Proof.
  revert st. induction l as [|a l IH]; intros st; cbn [fold_left].
  - cbn [existsb negb]. induction (listeners st) as [|u ls IHl];
      [reflexivity|]. cbn [filter]. now rewrite <- IHl.
  - rewrite IH. cbn [removeHandler listeners set_listeners].
    unfold removeEventListener. rewrite filter_filter.
    apply filter_ext. intros u. cbn [existsb].
    now rewrite negb_orb.
Qed.

(** X2.  [destroy] leaves no handler on the event target of any
    registered element, keeps the registrations on every other target, and
    changes nothing else: the page, the flag, and the callbacks waiting
    for the next frame or the next tick stay as they are.  Calling it
    again changes nothing. *)
Theorem destroy_removes_registered_handlers_only (st : State) :
  (forall e : Element,
     In e (elements st) -> ~ In (getEventTarget e) (listeners (destroy st)))
  /\ (forall u : EventTarget,
        ~ In u (registeredTargets st) ->
        count_occ EventTarget_eq_dec (listeners (destroy st)) u
        = count_occ EventTarget_eq_dec (listeners st) u)
  /\ (elements (destroy st) = elements st
      /\ options (destroy st) = options st
      /\ paused (destroy st) = paused st
      /\ page (destroy st) = page st
      /\ frames (destroy st) = frames st
      /\ ticks (destroy st) = ticks st
      /\ console (destroy st) = console st)
  /\ destroy (destroy st) = destroy st.
Proof.
  split; [|split; [|split]].
  - intros e Hin H. unfold destroy in H.
    apply removeHandler_fold_listeners in H. destruct H as [_ H].
    now apply (H e Hin).
  - intros u N. unfold destroy. apply removeHandler_fold_count.
    intros e He ->. apply N. unfold registeredTargets.
    now apply in_map.
  - apply removeHandler_fold_static.
  - pose proof (removeHandler_fold_static (elements st) st) as S1.
    fold (destroy st) in S1.
    pose proof (removeHandler_fold_static (elements (destroy st))
                  (destroy st)) as S2.
    fold (destroy (destroy st)) in S2.
    destruct S1 as (E1 & O1 & P1 & G1 & F1 & T1 & C1).
    destruct S2 as (E2 & O2 & P2 & G2 & F2 & T2 & C2).
    apply State_ext; try congruence.
    unfold destroy at 1. rewrite removeHandler_fold_filter, E1.
    unfold destroy. rewrite removeHandler_fold_filter, filter_filter.
    apply filter_ext. intros u. now rewrite andb_diag.
Qed.

(** *** Scroll containers and event targets *)

(** A scroll container is an [HTMLElement] that resolves to itself. *)
Lemma getScrollContainer_fixed (t : EventTarget) :
  instanceofHTMLElement (getScrollContainer t) = true
  /\ getScrollContainer (node (getScrollContainer t)) = getScrollContainer t.
Proof.
  destruct t as [|[|id html inBody]]; cbn; try (split; reflexivity).
  destruct html, inBody; cbn; split; reflexivity.
Qed.

(** X3.  The event target on which a scroll container listens resolves
    back to that container, so [handleScroll] recovers the scrolled
    element from [event.currentTarget]; the root container listens on the
    window and any other container on itself; and two different
    containers never listen on the same target. *)
Theorem container_of_event_target (t : EventTarget) :
  getScrollContainer (getEventTarget (getScrollContainer t))
  = getScrollContainer t
  /\ getEventTarget (getScrollContainer t)
     = (if Element_eqb (getScrollContainer t) documentElement
        then window else node (getScrollContainer t))
  /\ (forall t' : EventTarget,
        getEventTarget (getScrollContainer t)
        = getEventTarget (getScrollContainer t') ->
        getScrollContainer t = getScrollContainer t').
Proof.
  assert (R : forall u : EventTarget,
            getScrollContainer (getEventTarget (getScrollContainer u))
            = getScrollContainer u).
  { intros [|[|id html inBody]]; cbn; try reflexivity.
    destruct html, inBody; cbn; reflexivity. }
  split; [apply R|]. split.
  - destruct t as [|[|id html inBody]]; cbn; try reflexivity.
    destruct html, inBody; cbn; reflexivity.
  - intros t' H. rewrite <- (R t), <- (R t'). now rewrite H.
Qed.

(** *** The elements of an instance *)

Lemma resolveElements_In (candidates : list (option Element))
    (e : Element) :
  In e (resolveElements candidates)
  <-> exists c : Element,
        In (Some c) candidates /\ e = getScrollContainer (node c).
Proof. apply resolveElements_distinct. Qed.

Lemma unique_head (seen xs : list Element) (a : Element) :
  ~ In a seen -> unique seen (a :: xs) = a :: unique (a :: seen) xs.
Proof.
  intros N. cbn [unique].
  destruct (existsb (Element_eqb a) seen) eqn:X; [|reflexivity].
  apply existsb_Element_In in X. contradiction.
Qed.

(** X4.  The elements of an instance are the scroll containers of the
    candidates that are not falsy, each once: a falsy candidate
    contributes nothing, no element occurs twice, every element is the
    container of some candidate and every candidate's container is an
    element; the first element, the one [progress] is read from, is the
    container of the first candidate that is not falsy. *)
Theorem resolveElements_are_the_distinct_containers
    (candidates : list (option Element)) :
  NoDup (resolveElements candidates)
  /\ (forall e : Element,
        In e (resolveElements candidates)
        <-> exists c : Element,
              In (Some c) candidates /\ e = getScrollContainer (node c))
  /\ resolveElements (None :: candidates) = resolveElements candidates
  /\ (forall c : Element,
        nth_error (resolveElements (Some c :: candidates)) 0
        = Some (getScrollContainer (node c)))
  /\ (List.length (resolveElements candidates) <= List.length candidates)%nat.
Proof.
  split; [apply unique_NoDup|]. split; [apply resolveElements_In|].
  split; [reflexivity|]. split.
  - intros c. unfold resolveElements. cbn [flat_map app map].
    rewrite unique_head by (intros []). reflexivity.
  - rewrite <- (length_map
                  (fun o : option Element =>
                     match o with
                     | Some c => getScrollContainer (node c)
                     | None => documentElement
                     end) candidates).
    apply NoDup_incl_length; [apply unique_NoDup|].
    intros e He. apply resolveElements_In in He.
    destruct He as (c & Hc & ->).
    apply in_map_iff. exists (Some c). split; [reflexivity | exact Hc].
Qed.

Lemma NoDup_all_same (l : list Element) (d : Element) :
  NoDup l -> (forall e : Element, In e l -> e = d) -> l = [] \/ l = [d].
Proof.
  intros N H. destruct l as [|a [|b l]].
  - now left.
  - right. f_equal. apply H. now left.
  - exfalso. assert (a = d) by (apply H; now left).
    assert (b = d) by (apply H; right; now left). subst.
    inversion N as [|? ? Hn _]. apply Hn. now left.
Qed.

Lemma resolveElements_nil (candidates : list (option Element)) :
  resolveElements candidates = []
  <-> forall x : option Element, In x candidates -> x = None.
Proof.
  split.
  - intros E [c|] Hin; [exfalso|reflexivity].
    assert (H : In (getScrollContainer (node c)) (resolveElements candidates)).
    { apply resolveElements_In. exists c. now split. }
    rewrite E in H. destruct H.
  - intros H. destruct (resolveElements candidates) as [|e l] eqn:E;
      [reflexivity|exfalso].
    assert (He : In e (resolveElements candidates)) by (rewrite E; now left).
    apply resolveElements_In in He. destruct He as (c & Hc & _).
    apply H in Hc. discriminate Hc.
Qed.

Lemma validateElements_verdict (p : Element -> Region) (els : list Element) :
  fst (validateElements p (map Some els))
  = negb (List.length els <? 2)%nat.
Proof.
  unfold validateElements. rewrite length_map.
  destruct (List.length els <? 2)%nat; [reflexivity|].
  apply validateEach_defined.
Qed.

Section Building.

Variable settle : forall (extent viewport requested : float), float.

(** The state in which the constructor starts, before validation. *)
Lemma new_ScrollMirror_invalid (p : Element -> Region)
    (candidates : list (option Element)) (o : PartialOptions) :
  (List.length (resolveElements candidates) < 2)%nat ->
  new_ScrollMirror settle p candidates o
  = log [console_error (prefix ++ " Please provide at least two elements")]
        (mkState (resolveElements candidates) (mergeOptions defaults o)
                 false p [] [] [] []).
Proof.
  intros H. unfold new_ScrollMirror, validateElements.
  rewrite length_map. apply Nat.ltb_lt in H. rewrite H. reflexivity.
Qed.

Lemma new_ScrollMirror_valid (p : Element -> Region)
    (candidates : list (option Element)) (o : PartialOptions) :
  (2 <= List.length (resolveElements candidates))%nat ->
  new_ScrollMirror settle p candidates o
  = if existsb (Element_eqb documentElement) (resolveElements candidates)
    then mirrorScrollPositions settle
           (getScrollProgress (p documentElement)) (Some documentElement)
           (fold_left (fun s el => addHandler el s)
              (resolveElements candidates)
              (log (snd (validateEach p
                           (map Some (resolveElements candidates))))
                   (mkState (resolveElements candidates)
                      (mergeOptions defaults o) false p [] [] [] [])))
    else fold_left (fun s el => addHandler el s)
           (resolveElements candidates)
           (log (snd (validateEach p
                        (map Some (resolveElements candidates))))
                (mkState (resolveElements candidates)
                   (mergeOptions defaults o) false p [] [] [] [])).
Proof.
  intros H. unfold new_ScrollMirror.
  pose proof (validateElements_verdict p (resolveElements candidates)) as V.
  assert (L : (List.length (resolveElements candidates) <? 2)%nat = false)
    by (apply Nat.ltb_ge; exact H).
  unfold validateElements in *. rewrite length_map in *. rewrite L in *.
  destruct (validateEach p (map Some (resolveElements candidates)))
    as [ok printed].
  cbn [fst snd negb] in *. subst ok. cbn [negb].
  set (st1 := fold_left _ _ _).
  assert (E : elements st1 = resolveElements candidates
              /\ page st1 = p).
  { subst st1.
    match goal with
    | |- context [fold_left ?f ?l ?s] =>
        destruct (addHandler_fold_static l s) as (-> & -> & _)
    end.
    split; reflexivity. }
  destruct E as [-> ->]. reflexivity.
Qed.

(** X5.  Candidates that are not [HTMLElement]s inside the body (the root
    element, the body itself, an SVG node) all resolve to the one root
    container.  A construction from such candidates only, however many,
    leaves at most one element, so it prints the error and attaches no
    handler. *)
Theorem root_candidates_collapse (p : Element -> Region)
    (candidates : list (option Element)) (o : PartialOptions) :
  (forall c : Element,
     In (Some c) candidates ->
     instanceofHTMLElement c && matches_body_star c = false) ->
  (resolveElements candidates = []
   \/ resolveElements candidates = [documentElement])
  /\ listeners (new_ScrollMirror settle p candidates o) = []
  /\ console (new_ScrollMirror settle p candidates o)
     = [console_error (prefix ++ " Please provide at least two elements")].
Proof.
  intros H.
  assert (C : resolveElements candidates = []
              \/ resolveElements candidates = [documentElement]).
  { apply NoDup_all_same; [apply resolveElements_distinct|].
    intros e He. apply resolveElements_In in He.
    destruct He as (c & Hc & ->). cbn. now rewrite (H c Hc). }
  split; [exact C|].
  rewrite new_ScrollMirror_invalid
    by (destruct C as [-> | ->]; cbn; lia).
  split; reflexivity.
Qed.

(** X14.  Reading [progress] from a freshly built instance raises exactly
    when every candidate was falsy (in particular when there was none);
    with one candidate that is not falsy it returns, even though
    validation may have failed. *)
Theorem get_progress_throws_iff_no_candidate (p : Element -> Region)
    (candidates : list (option Element)) (o : PartialOptions) :
  throws (get_progress (new_ScrollMirror settle p candidates o)) = true
  <-> forall x : option Element, In x candidates -> x = None.
Proof.
  rewrite <- resolveElements_nil. unfold get_progress.
  destruct (new_ScrollMirror_static settle p candidates o) as [-> _].
  destruct (resolveElements candidates); cbn; split;
    reflexivity || discriminate.
Qed.

End Building.

(** The theorem above for [new ScrollMirror([documentElement, body, svg])]:
    three candidates, one container. *)
Lemma root_candidates_collapse_witness :
  resolveElements [Some documentElement; Some Demo.body; Some Demo.svg]
  = [documentElement]
  /\ listeners (new_ScrollMirror cssom_settle Demo.layout
                  [Some documentElement; Some Demo.body; Some Demo.svg]
                  Demo.no_options) = []
  /\ console (new_ScrollMirror cssom_settle Demo.layout
                [Some documentElement; Some Demo.body; Some Demo.svg]
                Demo.no_options)
     = [console_error (prefix ++ " Please provide at least two elements")].
Proof.
  split; [reflexivity|].
  apply (root_candidates_collapse cssom_settle Demo.layout
           [Some documentElement; Some Demo.body; Some Demo.svg]
           Demo.no_options).
  intros c [H | [H | [H | []]]]; inversion H; reflexivity.
Defined.

(** *** Detaching and re-attaching around a mirror pass *)

Lemma addHandler_fold_fields (l : list Element) (st : State) :
  options (fold_left (fun s el => addHandler el s) l st) = options st
  /\ paused (fold_left (fun s el => addHandler el s) l st) = paused st
  /\ frames (fold_left (fun s el => addHandler el s) l st) = frames st
  /\ ticks (fold_left (fun s el => addHandler el s) l st) = ticks st.
Proof.
  revert st. induction l as [|a l IH]; intros st; cbn [fold_left].
  - repeat split; reflexivity.
  - destruct (IH (addHandler a st)) as (-> & -> & -> & ->).
    repeat split; reflexivity.
Qed.

Lemma addHandler_fold_In (l : list Element) (st : State) (t : EventTarget) :
  In t (listeners (fold_left (fun s el => addHandler el s) l st))
  <-> In t (listeners st) \/ In t (map getEventTarget l).
Proof.
  revert st. induction l as [|a l IH]; intros st; cbn [fold_left map In].
  - tauto.
  - rewrite IH, addHandler_In. intuition congruence.
Qed.

Lemma animationFrame_In (st : State) (t : EventTarget) :
  In t (listeners (animationFrame st))
  <-> In t (listeners st) \/ In t (map getEventTarget (frames st)).
Proof. unfold animationFrame. now rewrite addHandler_fold_In. Qed.

Lemma animationFrame_static (st : State) :
  elements (animationFrame st) = elements st
  /\ page (animationFrame st) = page st
  /\ console (animationFrame st) = console st
  /\ options (animationFrame st) = options st
  /\ paused (animationFrame st) = paused st
  /\ frames (animationFrame st) = []
  /\ ticks (animationFrame st) = ticks st.
Proof.
  unfold animationFrame.
  destruct (addHandler_fold_static (frames st) (set_frames [] st))
    as (-> & -> & ->).
  destruct (addHandler_fold_fields (frames st) (set_frames [] st))
    as (-> & -> & -> & ->).
  repeat split; reflexivity.
Qed.

Section Guard.

Variable settle : forall (extent viewport requested : float), float.

Lemma mirror_fold_frames (p : Progress) (ig : option Element)
    (l : list Element) (st : State) :
  frames (fold_left (mirrorOne settle p ig) l st)
  = frames st ++ filter (fun e => negb (is_ignored ig e)) l.
Proof.
  revert st. induction l as [|a l IH]; intros st; cbn [fold_left filter].
  - now rewrite app_nil_r.
  - rewrite IH. unfold mirrorOne.
    destruct (is_ignored ig a); cbn [negb]; [reflexivity|].
    cbn. now rewrite <- app_assoc.
Qed.

Lemma mirror_fold_listeners (p : Progress) (ig : option Element)
    (l : list Element) (st : State) (t : EventTarget) :
  In t (listeners (fold_left (mirrorOne settle p ig) l st))
  <-> In t (listeners st)
      /\ forall e : Element,
           In e l -> is_ignored ig e = false -> t <> getEventTarget e.
Proof.
  revert st. induction l as [|a l IH]; intros st; cbn [fold_left].
  - split; [intros H; split; [exact H | intros e []] | tauto].
  - rewrite IH. clear IH. unfold mirrorOne.
    destruct (is_ignored ig a) eqn:I.
    + split; intros [H1 H2]; split; try assumption.
      * intros e [<- | He] Hi; [congruence | now apply H2].
      * intros e He. apply H2. now right.
    + cbn [listeners requestAnimationFrame set_frames set_page
           removeHandler set_listeners].
      rewrite removeEventListener_In.
      split.
      * intros [[H1 N] H2]. split; [exact H1|].
        intros e [<- | He] Hi; [exact N | now apply H2].
      * intros [H1 H2]. split; [split|].
        -- exact H1.
        -- apply H2; [now left | exact I].
        -- intros e He. apply H2. now right.
Qed.

(** X8.  The re-entrancy guard.  After a mirror pass the handler is
    registered exactly where it was before, minus the event targets of
    the elements the pass wrote to; one callback per written element is
    queued for the next frame, in the order of the elements; and a scroll
    event arriving at a written element before that frame finds no
    handler. *)
Theorem mirror_pass_detaches_written_elements (p : Progress)
    (ig : option Element) (st : State) :
  (forall t : EventTarget,
     In t (listeners (mirrorScrollPositions settle p ig st))
     <-> In t (listeners st)
         /\ forall e : Element,
              In e (elements st) -> is_ignored ig e = false ->
              t <> getEventTarget e)
  /\ frames (mirrorScrollPositions settle p ig st)
     = frames st ++ filter (fun e => negb (is_ignored ig e)) (elements st)
  /\ (forall e : Element,
        In e (elements st) -> is_ignored ig e = false ->
        dispatchScroll (getEventTarget e)
          (mirrorScrollPositions settle p ig st)
        = mirrorScrollPositions settle p ig st).
Proof.
  split; [|split].
  - intros t. apply mirror_fold_listeners.
  - apply mirror_fold_frames.
  - intros e He Hi. unfold dispatchScroll.
    destruct (existsb _ _) eqn:X; [|reflexivity].
    apply existsb_EventTarget_In in X.
    apply mirror_fold_listeners in X. destruct X as [_ X].
    now destruct (X e He Hi).
Qed.

(** X9.  What a mirror pass never does: it changes no extent, viewport
    size or style of any element; it leaves every offset on an axis
    switched off in the options; and it leaves the ignored element and
    every element that is not registered exactly as they were. *)
Theorem mirror_pass_frame (p : Progress) (ig : option Element)
    (st : State) (e : Element) :
  (scrollWidth (page (mirrorScrollPositions settle p ig st) e)
   = scrollWidth (page st e)
   /\ scrollHeight (page (mirrorScrollPositions settle p ig st) e)
      = scrollHeight (page st e)
   /\ clientWidth (page (mirrorScrollPositions settle p ig st) e)
      = clientWidth (page st e)
   /\ clientHeight (page (mirrorScrollPositions settle p ig st) e)
      = clientHeight (page st e)
   /\ cssOverflow (page (mirrorScrollPositions settle p ig st) e)
      = cssOverflow (page st e))
  /\ (forall ax : Axis,
        enabled ax (options st) = false ->
        offset ax (page (mirrorScrollPositions settle p ig st) e)
        = offset ax (page st e))
  /\ (is_ignored ig e = true ->
      page (mirrorScrollPositions settle p ig st) e = page st e)
  /\ (~ In e (elements st) ->
      page (mirrorScrollPositions settle p ig st) e = page st e).
Proof.
  rewrite mirrorScrollPositions_page.
  split; [|split; [|split]].
  - destruct (_ && _); [apply setScrollPosition_extents|].
    repeat split; reflexivity.
  - intros ax H. destruct (_ && _); [|reflexivity].
    rewrite setScrollPosition_offset, H. reflexivity.
  - intros ->. now rewrite andb_false_r.
  - intros N. destruct (existsb (Element_eqb e) (elements st)) eqn:X;
      [|reflexivity].
    apply existsb_Element_In in X. contradiction.
Qed.

End Guard.

(** *** Handlers are never lost for good *)

Section Coverage.

Variable settle : forall (extent viewport requested : float), float.

Lemma mirror_pass_attachedOrPending (p : Progress) (ig : option Element)
    (st : State) (t : EventTarget) :
  attachedOrPending st t ->
  attachedOrPending (mirrorScrollPositions settle p ig st) t.
Proof.
  unfold attachedOrPending, mirrorScrollPositions.
  rewrite mirror_fold_frames, map_app, in_app_iff, mirror_fold_listeners.
  intros H.
  destruct (existsb (fun e => negb (is_ignored ig e)
                              && EventTarget_eqb t (getEventTarget e))
                    (elements st)) eqn:X.
  - right. right. apply existsb_exists in X.
    destruct X as (e & He & Hb). apply andb_true_iff in Hb.
    destruct Hb as [Hi Ht]. apply EventTarget_eqb_eq in Ht. subst t.
    apply in_map. apply filter_In. now split.
  - assert (N : forall e : Element,
              In e (elements st) -> is_ignored ig e = false ->
              t <> getEventTarget e).
    { intros e He Hi ->.
      assert (Y : existsb (fun e0 => negb (is_ignored ig e0)
                                     && EventTarget_eqb (getEventTarget e)
                                          (getEventTarget e0))
                          (elements st) = true).
      { apply existsb_exists. exists e. split; [exact He|].
        rewrite Hi. cbn [negb andb]. now apply EventTarget_eqb_eq. }
      congruence. }
    destruct H as [H | H]; [left; now split | right; now left].
Qed.

Lemma mirror_pass_covered (p : Progress) (ig : option Element) (st : State) :
  covered st -> covered (mirrorScrollPositions settle p ig st).
Proof.
  intros C e He.
  destruct (mirrorScrollPositions_static settle p ig st) as (E & _).
  rewrite E in He. now apply mirror_pass_attachedOrPending, C.
Qed.

Lemma resumed_fold_covered (l : list Element) (st : State) :
  covered st ->
  covered (fold_left (fun s el => handleScroll_resumed settle el s) l st).
Proof.
  revert st. induction l as [|a l IH]; intros st C; cbn [fold_left].
  - exact C.
  - apply IH. unfold handleScroll_resumed. now apply mirror_pass_covered.
Qed.

Lemma animationFrame_attaches (st : State) (e : Element) :
  covered st -> In e (elements st) ->
  In (getEventTarget e) (listeners (animationFrame st)).
Proof. intros C He. apply animationFrame_In. now apply C. Qed.

(** X10.  From a state in which every registered element is listening or
    waiting to be re-attached, [pause], [resume], a scroll event, the
    passing of the tick, a mirror pass, an assignment to [progress] and
    the next animation frame all lead to such a state again; and once the
    frame has come every registered element is listening.  Only [destroy]
    takes handlers away for good. *)
Theorem coverage_is_kept (st : State) :
  covered st ->
  covered (pause st)
  /\ covered (resume st)
  /\ (forall t : EventTarget, covered (dispatchScroll t st))
  /\ covered (nextTick settle st)
  /\ (forall (p : Progress) (ig : option Element),
        covered (mirrorScrollPositions settle p ig st))
  /\ (forall value : ProgressValue,
        covered (after st (set_progress settle value st)))
  /\ covered (animationFrame st)
  /\ (forall e : Element,
        In e (elements st) ->
        In (getEventTarget e) (listeners (animationFrame st))).
Proof.
  intros C. repeat split.
  - exact C.
  - exact C.
  - intros t. unfold dispatchScroll, handleScroll.
    destruct (existsb _ _); [|exact C].
    destruct (paused st); exact C.
  - unfold nextTick. now apply resumed_fold_covered.
  - intros p ig. now apply mirror_pass_covered.
  - intros value. unfold set_progress.
    destruct value as [v | fx fy]; cbn [bind];
      (destruct (get_progress st) as [cur | err]; cbn [bind after];
       [|exact C]);
      match goal with
      | |- context [validateProgress ?m] =>
          destruct (validateProgress m) as [[|] printed]
      end; cbn [negb after];
      try (apply mirror_pass_covered); exact C.
  - intros e He. left.
    destruct (animationFrame_static st) as (E & _). rewrite E in He.
    now apply animationFrame_attaches.
  - intros e He. now apply animationFrame_attaches.
Qed.

End Coverage.

(** The theorem above on [Demo.scrolled], where [boxA] is listening and
    [boxB] waits for the frame: after the frame both are listening. *)
Lemma coverage_is_kept_witness :
  covered Demo.scrolled
  /\ listeners Demo.scrolled = [node Demo.boxA]
  /\ In (node Demo.boxB) (listeners (animationFrame Demo.scrolled))
  /\ covered (nextTick cssom_settle Demo.scrolled).
Proof.
  assert (C : covered Demo.scrolled).
  { intros e [<- | [<- | []]]; [left | right]; vm_compute; now left. }
  destruct (coverage_is_kept cssom_settle Demo.scrolled C)
    as (_ & _ & _ & T & _ & _ & _ & A).
  split; [exact C|]. split; [reflexivity|]. split; [|exact T].
  apply (A Demo.boxB). right. now left.
Defined.

(** *** A successful construction *)

Section Built.

Variable settle : forall (extent viewport requested : float), float.

Lemma attached_all_covered (l : list Element) (st : State) :
  elements st = l -> listeners st = [] ->
  covered (fold_left (fun s el => addHandler el s) l st).
Proof.
  intros E L e He. left. apply addHandler_fold_In. right.
  destruct (addHandler_fold_static l st) as (E' & _).
  rewrite E', E in He. now apply in_map.
Qed.

(** X6.  With two or more distinct scroll containers the constructor
    prints no error, only warnings about elements, and warnings never stop
    it: every registered element is listening or waiting to be
    re-attached, and once the next animation frame has come the handler
    is registered on the event targets of the registered elements and
    nowhere else. *)
Theorem construction_attaches_handlers (p : Element -> Region)
    (candidates : list (option Element)) (o : PartialOptions) :
  (2 <= List.length (resolveElements candidates))%nat ->
  covered (new_ScrollMirror settle p candidates o)
  /\ (forall t : EventTarget,
        In t (listeners
                (animationFrame (new_ScrollMirror settle p candidates o)))
        <-> In t (registeredTargets
                    (new_ScrollMirror settle p candidates o)))
  /\ (forall d : Diagnostic,
        In d (console (new_ScrollMirror settle p candidates o)) ->
        exists (msg : string) (el : Element), d = console_warn msg (Some el)).
Proof.
  intros H.
  destruct (new_ScrollMirror_static settle p candidates o) as [E C].
  set (st0 := log (snd (validateEach p
                          (map Some (resolveElements candidates))))
                  (mkState (resolveElements candidates)
                     (mergeOptions defaults o) false p [] [] [] [])).
  set (st1 := fold_left (fun s el => addHandler el s)
                (resolveElements candidates) st0).
  assert (C1 : covered st1).
  { subst st1. apply attached_all_covered; reflexivity. }
  assert (T1 : forall t : EventTarget,
             attachedOrPending st1 t ->
             In t (map getEventTarget (resolveElements candidates))).
  { intros t [Ht | Ht].
    - subst st1. apply addHandler_fold_In in Ht.
      destruct Ht as [[] | Ht]. exact Ht.
    - subst st1.
      destruct (addHandler_fold_fields (resolveElements candidates) st0)
        as (_ & _ & F & _).
      rewrite F in Ht. destruct Ht. }
  assert (N : new_ScrollMirror settle p candidates o = st1
              \/ new_ScrollMirror settle p candidates o
                 = mirrorScrollPositions settle
                     (getScrollProgress (p documentElement))
                     (Some documentElement) st1).
  { rewrite (new_ScrollMirror_valid settle p candidates o H).
    fold st0. fold st1. destruct (existsb _ _); [right | left]; reflexivity. }
  assert (CN : covered (new_ScrollMirror settle p candidates o)).
  { destruct N as [N | N]; rewrite N;
      [exact C1 | now apply mirror_pass_covered]. }
  split; [exact CN|]. split.
  - intros t. unfold registeredTargets. rewrite E, animationFrame_In.
    split.
    + intros Ht. apply T1. destruct N as [N | N]; rewrite N in Ht.
      * exact Ht.
      * unfold mirrorScrollPositions in Ht.
        rewrite mirror_fold_frames, map_app, in_app_iff,
          mirror_fold_listeners in Ht.
        destruct Ht as [[Ht _] | [Ht | Ht]].
        -- now left.
        -- now right.
        -- apply in_map_iff in Ht. destruct Ht as (e & <- & He).
           apply filter_In in He. destruct He as [He _].
           exact (C1 e He).
    + intros Ht. apply in_map_iff in Ht. destruct Ht as (e & <- & He).
      apply CN. now rewrite E.
  - intros d Hd. rewrite C in Hd. unfold validateElements in Hd.
    rewrite length_map in Hd.
    assert (L : (List.length (resolveElements candidates) <? 2)%nat = false)
      by (apply Nat.ltb_ge; exact H).
    rewrite L in Hd.
    now apply (proj2 (validateEach_defined p (resolveElements candidates))).
Qed.

(** X7.  The initial alignment.  When the root container is among two or
    more registered elements, the constructor brings every other
    registered element to the root's progress and leaves the root and the
    rest of the page alone; when the root is not among them, the
    constructor moves nothing. *)
Theorem construction_aligns_to_root (p : Element -> Region)
    (candidates : list (option Element)) (o : PartialOptions)
    (e : Element) :
  (2 <= List.length (resolveElements candidates))%nat ->
  page (new_ScrollMirror settle p candidates o) e
  = if existsb (Element_eqb documentElement) (resolveElements candidates)
       && existsb (Element_eqb e) (resolveElements candidates)
       && negb (Element_eqb documentElement e)
    then setScrollPosition settle (mergeOptions defaults o)
           (getScrollProgress (p documentElement)) (p e)
    else p e.
Proof.
  intros H. rewrite (new_ScrollMirror_valid settle p candidates o H).
  set (st1 := fold_left _ _ _).
  assert (F : elements st1 = resolveElements candidates
              /\ page st1 = p /\ options st1 = mergeOptions defaults o).
  { subst st1.
    match goal with
    | |- context [fold_left ?f ?l ?s] =>
        destruct (addHandler_fold_static l s) as (-> & -> & _);
        destruct (addHandler_fold_fields l s) as (-> & _)
    end.
    repeat split; reflexivity. }
  destruct F as (F1 & F2 & F3).
  destruct (existsb (Element_eqb documentElement)
              (resolveElements candidates)); cbn [andb].
  - rewrite mirrorScrollPositions_page, F1, F2, F3. reflexivity.
  - now rewrite F2.
Qed.

End Built.

(** The theorem above on [Demo.mirror], built from [boxA] and [boxB]. *)
Lemma construction_attaches_handlers_witness :
  covered Demo.mirror
  /\ (forall t : EventTarget,
        In t (listeners (animationFrame Demo.mirror))
        <-> In t (registeredTargets Demo.mirror))
  /\ (forall d : Diagnostic,
        In d (console Demo.mirror) ->
        exists (msg : string) (el : Element), d = console_warn msg (Some el)).
Proof.
  apply (construction_attaches_handlers cssom_settle Demo.layout
           [Some Demo.boxA; Some Demo.boxB] Demo.no_options).
  vm_compute. lia.
Defined.

(** The theorem above on [Demo.page_mirror]: the root stands at 300 of
    1000, and [boxB], 500 to scroll, is brought to 150. *)
Lemma construction_aligns_to_root_witness :
  page Demo.page_mirror Demo.boxB
  = setScrollPosition cssom_settle (mergeOptions defaults Demo.no_options)
      (getScrollProgress (Demo.long_page documentElement))
      (Demo.long_page Demo.boxB)
  /\ scrollTop (page Demo.page_mirror Demo.boxB) = 150
  /\ scrollTop (page Demo.page_mirror documentElement) = 300.
Proof.
  split; [|split; reflexivity].
  apply (construction_aligns_to_root cssom_settle Demo.long_page
           [Some documentElement; Some Demo.boxA; Some Demo.boxB]
           Demo.no_options Demo.boxB).
  vm_compute. lia.
Defined.

(** *** Writes to [progress] *)

Section Writes.

Variable settle : forall (extent viewport requested : float), float.

(** X11.  Assigning a number [v] that passes the range test to
    [progress], on an instance with at least one element, prints nothing
    and writes the pair ([v], [v]) to every registered element, the first
    one included; nothing else on the page moves.  Every registered
    element is detached by the pass and listening once the next frame has
    come, whether or not it was listening before the write. *)
Theorem set_progress_number_accepted (st : State) (el0 : Element)
    (rest : list Element) (v : float) :
  elements st = el0 :: rest ->
  out_of_range (Some v) = false ->
  exists st' : State,
    set_progress settle (value_number v) st = Returned st'
    /\ console st' = console st
    /\ (forall e : Element,
          In e (elements st) ->
          page st' e
          = setScrollPosition settle (options st) (mkProgress v v)
              (page st e))
    /\ (forall e : Element, ~ In e (elements st) -> page st' e = page st e)
    /\ (forall e : Element,
          In e (elements st) -> ~ In (getEventTarget e) (listeners st'))
    /\ (forall e : Element,
          In e (elements st) ->
          In (getEventTarget e) (listeners (animationFrame st'))).
Proof.
  intros E V.
  rewrite (set_progress_accepted settle (value_number v) st el0 rest E V V).
  cbn [merged merged_x merged_y toNumber].
  eexists. split; [reflexivity|].
  split; [|split; [|split; [|split]]].
  - destruct (mirrorScrollPositions_static settle (mkProgress v v) None
                (log [] st)) as (_ & _ & _ & _ & ->).
    cbn. apply app_nil_r.
  - intros e He. rewrite mirrorScrollPositions_page.
    cbn [log elements page options is_ignored negb].
    apply existsb_Element_In in He. now rewrite He.
  - intros e N. rewrite mirrorScrollPositions_page.
    cbn [log elements page options is_ignored negb].
    destruct (existsb (Element_eqb e) (elements st)) eqn:X; [|reflexivity].
    apply existsb_Element_In in X. contradiction.
  - intros e He Hl. unfold mirrorScrollPositions in Hl.
    apply mirror_fold_listeners in Hl. destruct Hl as [_ Hl].
    now apply (Hl e He).
  - intros e He. apply animationFrame_In. right.
    unfold mirrorScrollPositions. rewrite mirror_fold_frames.
    cbn [log elements frames is_ignored negb].
    rewrite map_app, in_app_iff. right. apply in_map.
    apply filter_In. now split.
Qed.

(** X13.  A write is refused whole when, after merging with the current
    progress, some axis is below 0, above 1 or not a number at all
    ([undefined]): the call returns, one line per such axis is added to
    the console, [x] before [y], and the page, the registrations and the
    queues are untouched. *)
Theorem set_progress_out_of_range_rejected (value : ProgressValue)
    (st : State) (el0 : Element) (rest : list Element) :
  elements st = el0 :: rest ->
  out_of_range
    (merged_x (merged (getScrollProgress (page st el0)) value))
  || out_of_range
       (merged_y (merged (getScrollProgress (page st el0)) value)) = true ->
  exists st' : State,
    set_progress settle value st = Returned st'
    /\ console st'
       = console st
         ++ (if out_of_range
                  (merged_x (merged (getScrollProgress (page st el0)) value))
             then [range_error "x"] else [])
         ++ (if out_of_range
                  (merged_y (merged (getScrollProgress (page st el0)) value))
             then [range_error "y"] else [])
    /\ console st' <> console st
    /\ page st' = page st
    /\ listeners st' = listeners st
    /\ frames st' = frames st
    /\ ticks st' = ticks st
    /\ elements st' = elements st
    /\ paused st' = paused st.
Proof.
  intros E H.
  rewrite (set_progress_rejected settle value st el0 rest E H).
  eexists. split; [reflexivity|]. cbn [log console page listeners frames
    ticks elements paused].
  repeat split.
  intros X. apply (f_equal (@List.length Diagnostic)) in X.
  rewrite length_app in X.
  destruct (out_of_range (merged_x _)), (out_of_range (merged_y _));
    cbn in X, H; try discriminate H; lia.
Qed.

(** X12.  The flag is looked at only when the event arrives.  A handler
    that is already waiting for the tick mirrors when the tick comes even
    if [pause] was called in between, and the callbacks waiting for the
    frame re-attach the handlers all the same: the tick and the frame do
    to a paused state what they do to the state itself. *)
Theorem pause_does_not_cancel_what_is_pending (st : State) :
  nextTick settle (pause st) = pause (nextTick settle st)
  /\ nextTick settle (resume st) = resume (nextTick settle st)
  /\ animationFrame (pause st) = pause (animationFrame st)
  /\ animationFrame (resume st) = resume (animationFrame st).
Proof.
  assert (M : forall (b : bool) (p : Progress) (ig : option Element)
                (l : list Element) (s : State),
            fold_left (mirrorOne settle p ig) l (set_paused b s)
            = set_paused b (fold_left (mirrorOne settle p ig) l s)).
  { intros b p ig l. induction l as [|a l IH]; intros s; cbn [fold_left];
      [reflexivity|].
    rewrite <- IH. f_equal. unfold mirrorOne.
    destruct (is_ignored ig a); reflexivity. }
  assert (T : forall (b : bool) (l : list Element) (s : State),
            fold_left (fun s0 el => handleScroll_resumed settle el s0) l
              (set_paused b s)
            = set_paused b
                (fold_left (fun s0 el => handleScroll_resumed settle el s0)
                   l s)).
  { intros b l. induction l as [|a l IH]; intros s; cbn [fold_left];
      [reflexivity|].
    rewrite <- IH. f_equal. unfold handleScroll_resumed,
      mirrorScrollPositions.
    cbn [set_paused elements page]. apply M. }
  assert (A : forall (b : bool) (l : list Element) (s : State),
            fold_left (fun s0 el => addHandler el s0) l (set_paused b s)
            = set_paused b (fold_left (fun s0 el => addHandler el s0) l s)).
  { intros b l. induction l as [|a l IH]; intros s; cbn [fold_left];
      [reflexivity|].
    rewrite <- IH. reflexivity. }
  unfold pause, resume, nextTick, animationFrame.
  repeat split.
  - apply (T true (ticks st) (set_ticks [] st)).
  - apply (T false (ticks st) (set_ticks [] st)).
  - apply (A true (frames st) (set_frames [] st)).
  - apply (A false (frames st) (set_frames [] st)).
Qed.

End Writes.

(** The theorem above for [progress = 0.5] on [Demo.mirror] after
    [destroy()]: the write brings the handlers back. *)
Lemma set_progress_number_accepted_witness :
  listeners (destroy Demo.mirror) = []
  /\ exists st' : State,
       set_progress cssom_settle (value_number 0.5) (destroy Demo.mirror)
       = Returned st'
       /\ scrollTop (page st' Demo.boxB) = 250
       /\ In (node Demo.boxB) (listeners (animationFrame st')).
Proof.
  split; [reflexivity|].
  destruct (set_progress_number_accepted cssom_settle (destroy Demo.mirror)
              Demo.boxA [Demo.boxB] 0.5 eq_refl eq_refl)
    as (st' & R & _ & P & _ & _ & A).
  exists st'. split; [exact R|]. split.
  - rewrite (P Demo.boxB (or_intror (or_introl eq_refl))). reflexivity.
  - apply (A Demo.boxB). right. now left.
Defined.

(** The theorem above for [progress = { x: -1 }] on [Demo.mirror]. *)
Lemma set_progress_out_of_range_rejected_witness :
  exists st' : State,
    set_progress cssom_settle (value_object (number (-1)) absent) Demo.mirror
    = Returned st'
    /\ console st' = [range_error "x"]
    /\ page st' = page Demo.mirror
    /\ listeners st' = listeners Demo.mirror.
Proof.
  destruct (set_progress_out_of_range_rejected cssom_settle
              (value_object (number (-1)) absent) Demo.mirror
              Demo.boxA [Demo.boxB] eq_refl eq_refl)
    as (st' & R & C & _ & P & L & _).
  exists st'. split; [exact R|]. split; [exact C|]. split; assumption.
Defined.

(** *** The progress read from an element is a number *)

Lemma along_getScrollProgress (ax : Axis) (el : Region) :
  along ax (getScrollProgress el)
  = if truthy (offset ax el)
    then offset ax el / Math_max epsilon (available ax el)
    else 0.
Proof. destruct ax; reflexivity. Qed.

Lemma is_infinity_Prim2SF (f : float) (s : bool) :
  is_infinity f = false -> Prim2SF f <> S754_infinity s.
Proof.
  unfold is_infinity. rewrite eqb_spec, abs_spec. intros H E.
  rewrite E in H. cbn in H. discriminate H.
Qed.

(** The divisor of [getScrollProgress] is a positive finite number when
    the scrollable distance is a finite number. *)
Lemma Math_max_epsilon_positive (a : float) :
  is_nan a = false -> is_infinity a = false ->
  exists (m : positive) (e : Z),
    Prim2SF (Math_max epsilon a) = S754_finite false m e.
Proof.
  intros N I. unfold Math_max. rewrite N.
  change (is_nan epsilon) with false. cbn [orb].
  assert (E : exists (m : positive) (e : Z),
            Prim2SF epsilon = S754_finite false m e).
  { eexists. eexists. vm_compute. reflexivity. }
  destruct (epsilon <? a) eqn:L.
  - rewrite ltb_spec in L. destruct E as (me & ee & E). rewrite E in L.
    pose proof (is_infinity_Prim2SF a) as Inf. specialize (Inf false I).
    assert (Nn : Prim2SF a <> S754_nan).
    { rewrite <- is_nan_Prim2SF. congruence. }
    destruct (Prim2SF a) as [s|s| |s m e]; cbn in L.
    + discriminate L.
    + destruct s; [discriminate L | congruence].
    + congruence.
    + destruct s; [discriminate L | eauto].
  - change (get_sign epsilon) with false.
    destruct (a <? epsilon); exact E.
Qed.

Lemma binary_round_aux_not_negative (prec emax mx ex : Z) (lx : location) :
  (0 <= mx)%Z ->
  SFltb (binary_round_aux prec emax false mx ex lx) (S754_zero false)
  = false.
Proof.
  intros H. unfold binary_round_aux.
  pose proof (shr_fexp_nonneg prec emax mx ex lx H) as H1.
  destruct (shr_fexp prec emax mx ex lx) as [mrs' e']. cbn in H1.
  pose proof (shr_fexp_nonneg prec emax _ e' loc_Exact
                (round_nearest_even_nonneg _ (loc_of_shr_record mrs') H1))
    as H2.
  destruct (shr_fexp prec emax _ e' loc_Exact) as [mrs'' e'']. cbn in H2.
  destruct (shr_m mrs''); [reflexivity| |lia].
  destruct (e'' <=? emax - prec)%Z; reflexivity.
Qed.

(** A number that is not below zero, divided by a positive finite number,
    is not below zero. *)
Lemma SFdiv_not_negative (prec emax : Z) (x : spec_float) (my : positive)
    (ey : Z) :
  SFltb x (S754_zero false) = false -> x <> S754_nan ->
  SFltb (SFdiv prec emax x (S754_finite false my ey)) (S754_zero false)
  = false.
Proof.
  intros L N. destruct x as [s|s| |s m e]; cbn.
  - reflexivity.
  - destruct s; [discriminate L | reflexivity].
  - congruence.
  - destruct s; [discriminate L|]. cbn [xorb].
    unfold SFdiv_core_binary.
    set (m' := match _ with 0%Z => _ | Z.pos _ => _ | Z.neg _ => _ end).
    assert (0 <= m')%Z.
    { subst m'. destruct (_ - _ - _)%Z; try lia. apply Z.shiftl_nonneg. lia. }
    pose proof (Z.div_eucl_eq m' (Z.pos my) ltac:(lia)) as Hq.
    pose proof (Z.mod_pos_bound m' (Z.pos my) ltac:(lia)) as Hr.
    unfold Z.modulo in Hr.
    destruct (Z.div_eucl m' (Z.pos my)) as [q r] eqn:E.
    apply binary_round_aux_not_negative. nia.
Qed.

(** X15.  For an element whose scrollable distance on an axis is a finite
    number, whatever its sign or size, the progress [getScrollProgress]
    returns on that axis is never NaN; and when the scroll offset is not
    negative the progress is not negative either, so it never fails the
    lower bound of [validateProgress]. *)
Theorem getScrollProgress_is_a_number (ax : Axis) (el : Region) :
  is_nan (available ax el) = false ->
  is_infinity (available ax el) = false ->
  is_nan (along ax (getScrollProgress el)) = false
  /\ ((offset ax el <? 0) = false ->
      (along ax (getScrollProgress el) <? 0) = false).
Proof.
  intros N I. rewrite along_getScrollProgress.
  destruct (Math_max_epsilon_positive (available ax el) N I)
    as (m & e & E).
  destruct (truthy (offset ax el)) eqn:T; [|split; reflexivity].
  assert (Nx : Prim2SF (offset ax el) <> S754_nan).
  { rewrite <- is_nan_Prim2SF. rewrite (truthy_not_nan _ T). discriminate. }
  split.
  - apply not_true_iff_false. rewrite is_nan_Prim2SF, div_spec, E.
    now apply SFdiv_finite_not_nan.
  - intros L. rewrite ltb_spec in L |- *. rewrite div_spec, E.
    change (Prim2SF 0) with (S754_zero false) in *.
    now apply SFdiv_not_negative.
Qed.

(** The theorem above on [boxB] of [Demo.scrolled], which stands at 250 of
    500: its vertical progress is 0.5. *)
Lemma getScrollProgress_is_a_number_witness :
  along axis_y (getScrollProgress (page Demo.scrolled Demo.boxB)) = 0.5
  /\ is_nan (along axis_y (getScrollProgress (page Demo.scrolled Demo.boxB)))
     = false
  /\ (along axis_y (getScrollProgress (page Demo.scrolled Demo.boxB)) <? 0)
     = false.
Proof.
  split; [reflexivity|].
  destruct (getScrollProgress_is_a_number axis_y
              (page Demo.scrolled Demo.boxB) eq_refl eq_refl) as [A B].
  split; [exact A | exact (B eq_refl)].
Defined.

(** *** A native scroll, from the event to the mirrored page *)

Section NativeScroll.

Variable settle : forall (extent viewport requested : float), float.

(** X16.  The user scrolls a scroll container [el] whose handler is
    attached, while the instance is not paused and no earlier handler is
    waiting.  Once the tick has passed, [el] stands where the user put it,
    every other registered element stands where [setScrollPosition] puts
    it for the progress read from [el] after the scroll, and the rest of
    the page is untouched; [el] keeps its handler, and every other
    registered element has lost its own until the next frame. *)
Theorem native_scroll_mirrors_to_the_others (st : State) (el : Element)
    (top left : float) :
  paused st = false ->
  ticks st = [] ->
  getScrollContainer (getEventTarget el) = el ->
  In (getEventTarget el) (listeners st) ->
  page (nativeScroll settle el top left st) el
  = with_scrollLeft left (with_scrollTop top (page st el))
  /\ (forall e : Element,
        e <> el ->
        page (nativeScroll settle el top left st) e
        = if existsb (Element_eqb e) (elements st)
          then setScrollPosition settle (options st)
                 (getScrollProgress
                    (with_scrollLeft left (with_scrollTop top (page st el))))
                 (page st e)
          else page st e)
  /\ (forall e : Element,
        In e (elements st) -> e <> el ->
        ~ In (getEventTarget e)
             (listeners (nativeScroll settle el top left st)))
  /\ ((forall e : Element,
         In e (elements st) -> e <> el ->
         getEventTarget e <> getEventTarget el) ->
      In (getEventTarget el)
         (listeners (nativeScroll settle el top left st)))
  /\ ticks (nativeScroll settle el top left st) = [].
Proof.
  intros P T G L.
  assert (N : nativeScroll settle el top left st
              = mirrorScrollPositions settle
                  (getScrollProgress
                     (with_scrollLeft left (with_scrollTop top (page st el))))
                  (Some el)
                  (set_ticks []
                     (set_ticks [el]
                        (set_page
                           (update (page st) el
                              (with_scrollLeft left
                                 (with_scrollTop top (page st el))))
                           st)))).
  { unfold nativeScroll, dispatchScroll.
    cbn [set_page listeners].
    rewrite (proj2 (existsb_EventTarget_In _ _) L).
    unfold handleScroll. cbn [set_page paused ticks]. rewrite P, T, G.
    cbn [app]. unfold nextTick. cbn [set_ticks ticks fold_left].
    unfold handleScroll_resumed. cbn [page set_ticks set_page].
    unfold update at 1. now rewrite Element_eqb_refl. }
  rewrite N. split; [|split; [|split; [|split]]].
  - rewrite mirrorScrollPositions_page. cbn [is_ignored].
    rewrite Element_eqb_refl, andb_false_r. cbn [set_ticks set_page page].
    unfold update. now rewrite Element_eqb_refl.
  - intros e D. rewrite mirrorScrollPositions_page.
    cbn [is_ignored set_ticks set_page page elements options].
    assert (X : Element_eqb el e = false)
      by (apply Element_eqb_neq; congruence).
    assert (Y : Element_eqb e el = false) by now apply Element_eqb_neq.
    rewrite X, andb_true_r. unfold update. rewrite Y. reflexivity.
  - intros e He D Hl. unfold mirrorScrollPositions in Hl.
    apply mirror_fold_listeners in Hl. destruct Hl as [_ Hl].
    apply (Hl e); [exact He | | reflexivity].
    cbn [is_ignored]. apply Element_eqb_neq. congruence.
  - intros Inj. unfold mirrorScrollPositions.
    apply mirror_fold_listeners. split; [exact L|].
    intros e He Hi E. cbn [is_ignored] in Hi.
    apply Element_eqb_neq in Hi.
    apply (Inj e He); [congruence | now symmetry].
  - destruct (mirrorScrollPositions_static settle
                (getScrollProgress
                   (with_scrollLeft left (with_scrollTop top (page st el))))
                (Some el)
                (set_ticks []
                   (set_ticks [el]
                      (set_page
                         (update (page st) el
                            (with_scrollLeft left
                               (with_scrollTop top (page st el))))
                         st)))) as (_ & _ & _ & -> & _).
    reflexivity.
Qed.

End NativeScroll.

(** The theorem above for the scenario of the spec: on [Demo.mirror],
    scrolling [boxA] to 500 of 1000 brings [boxB] to 250 of 500. *)
Lemma native_scroll_mirrors_to_the_others_witness :
  scrollTop (page (nativeScroll cssom_settle Demo.boxA 500 0 Demo.mirror)
                  Demo.boxA) = 500
  /\ scrollTop (page (nativeScroll cssom_settle Demo.boxA 500 0 Demo.mirror)
                     Demo.boxB) = 250
  /\ ~ In (node Demo.boxB)
          (listeners (nativeScroll cssom_settle Demo.boxA 500 0 Demo.mirror)).
Proof.
  destruct (native_scroll_mirrors_to_the_others cssom_settle Demo.mirror
              Demo.boxA 500 0 eq_refl eq_refl eq_refl (or_introl eq_refl))
    as (A & B & C & _).
  split; [now rewrite A|]. split.
  - rewrite (B Demo.boxB); [reflexivity | discriminate].
  - apply (C Demo.boxB); [right; now left | discriminate].
Defined.
